(** * Customer Support AI Service: the classification pipeline

    A verification development for [src/schamas.py],
    [src/services/gbt_service.py] and the endpoints of [src/main.py].  The service asks a completion API to classify a
    customer message, asks it again for the structured data of that class,
    reads each completion with [json.loads], builds pydantic models from the
    parsed values, falls back to fixed records when parsing fails, and
    composes a reply from a template.

    The embedding is shallow: a Python value read from a completion is a
    [json], a Python exception is an [exn], and a method of
    [CustomerSupportAIService] is a computation in the monad [M], which
    threads the outside world (the completions still to come, the random
    source behind [uuid.uuid4]) and may raise. *)

From Stdlib Require Import ZArith NArith String Ascii List Bool.
From Stdlib Require Import PrimFloat.
From Stdlib Require SpecFloat FloatOps.
From stdpp Require Import base option list strings gmap.

Local Open Scope string_scope.

(** ** Python strings *)

(** Lower and upper case of the ASCII letters.  Strings are kept as byte
    strings (UTF-8); bytes above 127 are left as they are.  [upper] is
    [str.upper] on the hexadecimal digits it is applied to; [str.lower] is
    [str_lower] below. *)
Definition lower_char (c : ascii) : ascii :=
  let n := nat_of_ascii c in
  if Nat.leb 65 n && Nat.leb n 90 then ascii_of_nat (n + 32) else c.

Definition upper_char (c : ascii) : ascii :=
  let n := nat_of_ascii c in
  if Nat.leb 97 n && Nat.leb n 122 then ascii_of_nat (n - 32) else c.

Fixpoint lower (s : string) : string :=
  match s with
  | EmptyString => EmptyString
  | String c s' => String (lower_char c) (lower s')
  end.

Fixpoint upper (s : string) : string :=
  match s with
  | EmptyString => EmptyString
  | String c s' => String (upper_char c) (upper s')
  end.

(** ASCII text: every byte is below 128. *)
Definition is_ascii (s : string) : bool :=
  forallb (fun c => Nat.ltb (nat_of_ascii c) 128) (list_ascii_of_string s).

(** [str.lower].  On ASCII text it is [lower]; what it does to the other
    characters (the case mapping of Unicode) is a parameter, and every
    theorem below holds whatever it is. *)
Class CaseMapping : Type := {
  str_lower : string -> string;
  str_lower_ascii : forall s, is_ascii s = true -> str_lower s = lower s
}.

(** The case mapping that leaves every other character alone, for running
    the model on ASCII text. *)
Definition ascii_text : CaseMapping :=
  {| str_lower := lower; str_lower_ascii := fun _ _ => eq_refl |}.

(** [sep.join(parts)] *)
Definition join (sep : string) (parts : list string) : string :=
  String.concat sep parts.

(** [needle in s]: [needle] occurs in [s] as a contiguous run. *)
Definition contains (s needle : string) : Prop :=
  exists before after, s = before ++ needle ++ after.

(** [s.startswith(p)] *)
Definition startswith (p s : string) : bool := String.prefix p s.

(** ** Values produced by [json.loads] *)

Set Warnings "-register-all".

Inductive json : Type :=
  | JNull
  | JBool (b : bool)
  | JInt (z : Z)
  | JFloat (f : float)
  | JStr (s : string)
  | JList (l : list json)
  | JDict (m : gmap string json).

(** The text of a completion, seen through the only thing the service does
    with it: [json.loads] either rejects it ([JSONDecodeError]) or yields a
    value.  A statement about every completion text is a statement about
    every [content]. *)
Inductive content : Type :=
  | not_json
  | json_text (v : json).

(** ** Exceptions and the service monad *)

Inductive exn : Type :=
  | JSONDecodeError
  | KeyError
  | TypeError
  | AttributeError
  | ValueError
  | ValidationError
  | APIError.

Inductive outcome (A : Type) : Type :=
  | Return (a : A)
  | Raise (e : exn).
Arguments Return {A} a.
Arguments Raise {A} e.

(** What lies outside the process: the completions the API will answer with,
    in order, and the random source read by [uuid.uuid4] ([urandom n] is the
    128-bit block of the [n]-th read). *)
Record World : Type := mkWorld {
  completions : list content;
  urandom : nat -> N;
  drawn : nat
}.

Definition M (A : Type) : Type := World -> outcome A * World.

Definition ret {A} (a : A) : M A := fun w => (Return a, w).

Definition raise {A} (e : exn) : M A := fun w => (Raise e, w).

Definition bind {A B} (m : M A) (k : A -> M B) : M B :=
  fun w =>
    match m w with
    | (Return a, w') => k a w'
    | (Raise e, w') => (Raise e, w')
    end.

Notation "x <- m ;; k" := (bind m (fun x => k))
  (at level 100, m at next level, right associativity).

(** [try: body except (E1, E2): handler].  An exception of a class that the
    clause does not list goes through; what [body] did to the world before
    raising stays done. *)
Definition try_except {A} (body : M A) (catches : exn -> bool) (handler : M A) : M A :=
  fun w =>
    match body w with
    | (Return a, w') => (Return a, w')
    | (Raise e, w') => if catches e then handler w' else (Raise e, w')
    end.

(** [except (json.JSONDecodeError, KeyError)], the clause of all four
    [try] statements of the service.  [JSONDecodeError] is a subclass of
    [ValueError], not the other way round. *)
Definition JSONDecodeError_or_KeyError (e : exn) : bool :=
  match e with
  | JSONDecodeError | KeyError => true
  | _ => false
  end.

Fixpoint traverse {A B} (f : A -> M B) (l : list A) : M (list B) :=
  match l with
  | [] => ret []
  | x :: l' => y <- f x ;; ys <- traverse f l' ;; ret (y :: ys)
  end.

(** ** The collaborators *)

(** [self.client.chat.completions.create(...)] followed by
    [response.choices[0].message.content]: the next completion, taken to be
    a text.  The prompt is not part of the model: the completion is
    arbitrary whatever the prompt says.  With no completion to give, the
    call fails. *)
Definition create : M content :=
  fun w =>
    match completions w with
    | c :: rest => (Return c, mkWorld rest (urandom w) (drawn w))
    | [] => (Raise APIError, w)
    end.

(** [json.loads(text)] *)
Definition json_loads (c : content) : M json :=
  match c with
  | not_json => raise JSONDecodeError
  | json_text v => ret v
  end.

(** [obj[key]] with a string key: a dictionary answers or raises [KeyError];
    a list, a string, a number, a boolean and [None] raise [TypeError]. *)
Definition getitem (obj : json) (key : string) : M json :=
  match obj with
  | JDict m =>
      match m !! key with
      | Some v => ret v
      | None => raise KeyError
      end
  | _ => raise TypeError
  end.

(** [obj.get(key, default)]: only dictionaries have the method. *)
Definition get (obj : json) (key : string) (dflt : json) : M json :=
  match obj with
  | JDict m => ret (default dflt (m !! key))
  | _ => raise AttributeError
  end.

(** [for x in obj]: a list gives its items, a string its characters, a
    dictionary its keys; [None], booleans and numbers are not iterable. *)
Definition iter (obj : json) : M (list json) :=
  match obj with
  | JList l => ret l
  | JStr s => ret (map (fun c => JStr (String c EmptyString)) (list_ascii_of_string s))
  | JDict m => ret (map (fun kv => JStr (fst kv)) (map_to_list m))
  | _ => raise TypeError
  end.

(** *** [uuid] *)

(** ['%x' % d] for one digit *)
Definition hex_digit (d : N) : ascii :=
  match String.get (N.to_nat d) "0123456789abcdef" with
  | Some c => c
  | None => "0"%char
  end.

(** ['%032x' % n] for [n] below [2^128], with [width] 32 *)
Fixpoint hex_fixed (width : nat) (n : N) : string :=
  match width with
  | O => EmptyString
  | S k => hex_fixed k (N.div n 16) ++ String (hex_digit (N.modulo n 16)) EmptyString
  end.

(** [UUID(bytes=..., version=4).int]: the variant is set to RFC 4122 and the
    version to 4. *)
Definition UUID_int (bytes : N) : N :=
  let i := N.modulo bytes (2 ^ 128) in
  let i := N.ldiff i (N.shiftl 0xc000 48) in
  let i := N.lor i (N.shiftl 0x8000 48) in
  let i := N.ldiff i (N.shiftl 0xf000 64) in
  N.lor i (N.shiftl 4 76).

(** [str(u)] for a UUID: 8-4-4-4-12 lower-case hexadecimal digits *)
Definition UUID_str (i : N) : string :=
  let hex := hex_fixed 32 i in
  substring 0 8 hex ++ "-" ++ substring 8 4 hex ++ "-" ++ substring 12 4 hex
    ++ "-" ++ substring 16 4 hex ++ "-" ++ substring 20 12 hex.

(** [uuid.uuid4()]: one read of the random source. *)
Definition uuid4 : M N :=
  fun w =>
    (Return (UUID_int (urandom w (drawn w))),
     mkWorld (completions w) (urandom w) (S (drawn w))).

(** ** [schamas.py] *)

Inductive MessageType : Type :=
  | bug_report
  | feature_request
  | general_inquiry.

Inductive InquiryCategory : Type :=
  | account_management
  | billing
  | usage_question
  | other.

Module CustomerMessageRequest.
Record t : Type := mk {
  customer_id : string;
  message : string;
  product : string
}.
End CustomerMessageRequest.

Module TicketModel.
Record t : Type := mk {
  id : string;
  title : string;
  severity : string;
  affected_components : list string;
  reproduction_steps : list string;
  priority : string;
  assigned_team : string
}.
End TicketModel.

Module TicketResponse.
Record t : Type := mk { ticket : TicketModel.t }.
End TicketResponse.

Module ProductRequirementModel.
Record t : Type := mk {
  id : string;
  title : string;
  description : string;
  user_story : string;
  business_value : string;
  complexity_estimate : string;
  affected_components : list string;
  status : string
}.
End ProductRequirementModel.

Module ProductRequirementResponse.
Record t : Type := mk { product_requirement : ProductRequirementModel.t }.
End ProductRequirementResponse.

Module SuggestedResource.
Record t : Type := mk {
  title : string;
  url : string
}.
End SuggestedResource.

Module GeneralInquiryResponse.
Record t : Type := mk {
  inquiry_category : InquiryCategory;
  requires_human_review : bool;
  suggested_resources : list SuggestedResource.t
}.
End GeneralInquiryResponse.

(** [Union[TicketResponse, ProductRequirementResponse, GeneralInquiryResponse]]:
    the constructor is the class of the object. *)
Inductive ResponseData : Type :=
  | IsTicketResponse (r : TicketResponse.t)
  | IsProductRequirementResponse (r : ProductRequirementResponse.t)
  | IsGeneralInquiryResponse (r : GeneralInquiryResponse.t).

Module MainResponse.
Record t : Type := mk {
  message_type : MessageType;
  confidence_score : float;
  response_data : ResponseData;
  customer_response : string
}.
End MainResponse.

(** [MessageType(value)]: the member with that value, [ValueError] when
    there is none. *)
Definition to_MessageType (value : json) : M MessageType :=
  match value with
  | JStr s =>
      if String.eqb s "bug_report" then ret bug_report
      else if String.eqb s "feature_request" then ret feature_request
      else if String.eqb s "general_inquiry" then ret general_inquiry
      else raise ValueError
  | _ => raise ValueError
  end.

(** [InquiryCategory(value)] *)
Definition to_InquiryCategory (value : json) : M InquiryCategory :=
  match value with
  | JStr s =>
      if String.eqb s "Account Management" then ret account_management
      else if String.eqb s "Billing" then ret billing
      else if String.eqb s "Usage Question" then ret usage_question
      else if String.eqb s "Other" then ret other
      else raise ValueError
  | _ => raise ValueError
  end.

(** *** Field validation

    A pydantic model checks the value given for each field against the
    field's annotation and raises [ValidationError] when one does not fit.
    A value of the annotated type is kept as it is; [None], a list and a
    dictionary never fit [str], [bool] or [float]; an [int] fits [float].
    Which other scalars are converted (a numeric string for a [float], 0 and
    1 for a [bool], ...) depends on the pydantic release: [Lax] holds those
    rules, and every theorem below holds whatever they are. *)
Class Lax : Type := {
  lax_str : json -> option string;
  lax_bool : json -> option bool;
  lax_float : json -> option float
}.

(** No conversion at all, for running the model. *)
Definition exact_types : Lax :=
  {| lax_str := fun _ => None; lax_bool := fun _ => None; lax_float := fun _ => None |}.

(** [float(z)] for an [int]: the nearest double, ties to even. *)
Definition float_of_int (z : Z) : float :=
  FloatOps.SF2Prim (SpecFloat.binary_normalize FloatOps.prec FloatOps.emax z 0 false).

Section Pydantic.
Context `{Lax}.

Definition check_str (v : json) : option string :=
  match v with
  | JStr s => Some s
  | JNull | JList _ | JDict _ => None
  | _ => lax_str v
  end.

Definition check_bool (v : json) : option bool :=
  match v with
  | JBool b => Some b
  | JNull | JList _ | JDict _ => None
  | _ => lax_bool v
  end.

(** An [int] too large for a double (where [float(z)] overflows) is
    refused. *)
Definition check_float (v : json) : option float :=
  match v with
  | JFloat f => Some f
  | JInt z =>
      let f := float_of_int z in
      if PrimFloat.is_infinity f then None else Some f
  | JNull | JList _ | JDict _ => None
  | _ => lax_float v
  end.

Definition or_ValidationError {A} (o : option A) : M A :=
  match o with
  | Some a => ret a
  | None => raise ValidationError
  end.

Definition validate_str (v : json) : M string := or_ValidationError (check_str v).

Definition validate_bool (v : json) : M bool := or_ValidationError (check_bool v).

Definition validate_float (v : json) : M float := or_ValidationError (check_float v).

(** [list[str]] *)
Definition validate_list_str (v : json) : M (list string) :=
  match v with
  | JList l => traverse validate_str l
  | _ => raise ValidationError
  end.

(** [TicketModel(id=..., title=..., ...)] *)
Definition new_TicketModel
    (id title severity affected_components reproduction_steps priority assigned_team : json)
    : M TicketModel.t :=
  id <- validate_str id ;;
  title <- validate_str title ;;
  severity <- validate_str severity ;;
  affected_components <- validate_list_str affected_components ;;
  reproduction_steps <- validate_list_str reproduction_steps ;;
  priority <- validate_str priority ;;
  assigned_team <- validate_str assigned_team ;;
  ret (TicketModel.mk id title severity affected_components reproduction_steps
         priority assigned_team).

(** [ProductRequirementModel(id=..., title=..., ...)] *)
Definition new_ProductRequirementModel
    (id title description user_story business_value complexity_estimate
       affected_components status : json)
    : M ProductRequirementModel.t :=
  id <- validate_str id ;;
  title <- validate_str title ;;
  description <- validate_str description ;;
  user_story <- validate_str user_story ;;
  business_value <- validate_str business_value ;;
  complexity_estimate <- validate_str complexity_estimate ;;
  affected_components <- validate_list_str affected_components ;;
  status <- validate_str status ;;
  ret (ProductRequirementModel.mk id title description user_story business_value
         complexity_estimate affected_components status).

(** [SuggestedResource(title=..., url=...)] *)
Definition new_SuggestedResource (title url : json) : M SuggestedResource.t :=
  title <- validate_str title ;;
  url <- validate_str url ;;
  ret (SuggestedResource.mk title url).

(** [GeneralInquiryResponse(inquiry_category=..., requires_human_review=...,
    suggested_resources=...)], the category being a member of the
    enumeration and the resources models already. *)
Definition new_GeneralInquiryResponse
    (inquiry_category : InquiryCategory) (requires_human_review : json)
    (suggested_resources : list SuggestedResource.t)
    : M GeneralInquiryResponse.t :=
  requires_human_review <- validate_bool requires_human_review ;;
  ret (GeneralInquiryResponse.mk inquiry_category requires_human_review
         suggested_resources).

(** [MainResponse(message_type=..., confidence_score=..., response_data=...,
    customer_response=...)]: the score is whatever the classifier read; the
    rest is typed already. *)
Definition new_MainResponse
    (message_type : MessageType) (confidence_score : json)
    (response_data : ResponseData) (customer_response : string)
    : M MainResponse.t :=
  confidence_score <- validate_float confidence_score ;;
  ret (MainResponse.mk message_type confidence_score response_data customer_response).

End Pydantic.

(** ** [services/gbt_service.py]: [CustomerSupportAIService] *)

(** [response_data.ticket] and the other attributes read by the composer:
    an object of another class has no such attribute. *)
Definition attr_ticket (response_data : ResponseData) : M TicketModel.t :=
  match response_data with
  | IsTicketResponse r => ret (TicketResponse.ticket r)
  | _ => raise AttributeError
  end.

Definition attr_product_requirement (response_data : ResponseData)
    : M ProductRequirementModel.t :=
  match response_data with
  | IsProductRequirementResponse r => ret (ProductRequirementResponse.product_requirement r)
  | _ => raise AttributeError
  end.

Definition attr_requires_human_review (response_data : ResponseData) : M bool :=
  match response_data with
  | IsGeneralInquiryResponse r => ret (GeneralInquiryResponse.requires_human_review r)
  | _ => raise AttributeError
  end.

Definition attr_suggested_resources (response_data : ResponseData)
    : M (list SuggestedResource.t) :=
  match response_data with
  | IsGeneralInquiryResponse r => ret (GeneralInquiryResponse.suggested_resources r)
  | _ => raise AttributeError
  end.

Section CustomerSupportAIService.
Context `{Lax} {cm : CaseMapping}.

Definition _classify_message_type (message : string) : M (MessageType * json) :=
  response <- create ;;
  try_except
    (result <- json_loads response ;;
     classification <- getitem result "classification" ;;
     message_type <- to_MessageType classification ;;
     confidence_score <- getitem result "confidence_score" ;;
     ret (message_type, confidence_score))
    JSONDecodeError_or_KeyError
    (ret (general_inquiry, JFloat 0.5)).

Definition _generate_bug_report_data (request : CustomerMessageRequest.t)
    : M TicketResponse.t :=
  response <- create ;;
  try_except
    (data <- json_loads response ;;
     u <- uuid4 ;;
     let id := "BUG-" ++ upper (substring 0 4 (UUID_str u)) in
     title <- getitem data "title" ;;
     severity <- getitem data "severity" ;;
     affected_components <- getitem data "affected_components" ;;
     reproduction_steps <- getitem data "reproduction_steps" ;;
     priority <- getitem data "priority" ;;
     assigned_team <- getitem data "assigned_team" ;;
     ticket <- new_TicketModel (JStr id) title severity affected_components
                 reproduction_steps priority assigned_team ;;
     ret (TicketResponse.mk ticket))
    JSONDecodeError_or_KeyError
    (u <- uuid4 ;;
     let id := "BUG-" ++ upper (substring 0 4 (UUID_str u)) in
     ticket <- new_TicketModel (JStr id) (JStr "Bug Report") (JStr "Medium")
                 (JList [JStr "General"])
                 (JList [JStr "Steps to reproduce not specified"])
                 (JStr "Medium") (JStr "Support Team") ;;
     ret (TicketResponse.mk ticket)).

Definition _generate_feature_request_data (request : CustomerMessageRequest.t)
    : M ProductRequirementResponse.t :=
  response <- create ;;
  try_except
    (data <- json_loads response ;;
     u <- uuid4 ;;
     let id := "FR-" ++ upper (substring 0 4 (UUID_str u)) in
     title <- getitem data "title" ;;
     description <- getitem data "description" ;;
     user_story <- getitem data "user_story" ;;
     business_value <- getitem data "business_value" ;;
     complexity_estimate <- getitem data "complexity_estimate" ;;
     affected_components <- getitem data "affected_components" ;;
     requirement <- new_ProductRequirementModel (JStr id) title description user_story
                      business_value complexity_estimate affected_components
                      (JStr "Under Review") ;;
     ret (ProductRequirementResponse.mk requirement))
    JSONDecodeError_or_KeyError
    (u <- uuid4 ;;
     let id := "FR-" ++ upper (substring 0 4 (UUID_str u)) in
     requirement <- new_ProductRequirementModel (JStr id) (JStr "Feature Request")
                      (JStr "New feature requested by customer")
                      (JStr "As a user, I want this feature so that I can benefit from it")
                      (JStr "Medium - Customer requested feature")
                      (JStr "Medium")
                      (JList [JStr "General"])
                      (JStr "Under Review") ;;
     ret (ProductRequirementResponse.mk requirement)).

Definition _generate_general_inquiry_data (request : CustomerMessageRequest.t)
    : M GeneralInquiryResponse.t :=
  response <- create ;;
  try_except
    (data <- json_loads response ;;
     listed <- get data "suggested_resources" (JList []) ;;
     items <- iter listed ;;
     resources <- traverse (fun resource =>
                          title <- getitem resource "title" ;;
                          url <- getitem resource "url" ;;
                          new_SuggestedResource title url) items ;;
     category <- getitem data "category" ;;
     inquiry_category <- to_InquiryCategory category ;;
     requires_human_review <- getitem data "requires_human_review" ;;
     new_GeneralInquiryResponse inquiry_category requires_human_review resources)
    JSONDecodeError_or_KeyError
    (help <- new_SuggestedResource (JStr "Help Center") (JStr "https://help.example.com") ;;
     new_GeneralInquiryResponse other (JBool true) [help]).

(** The [else] branch is taken by [general_inquiry], the only other member. *)
Definition _generate_response_data
    (request : CustomerMessageRequest.t) (message_type : MessageType) : M ResponseData :=
  match message_type with
  | bug_report =>
      r <- _generate_bug_report_data request ;; ret (IsTicketResponse r)
  | feature_request =>
      r <- _generate_feature_request_data request ;; ret (IsProductRequirementResponse r)
  | general_inquiry =>
      r <- _generate_general_inquiry_data request ;; ret (IsGeneralInquiryResponse r)
  end.

Definition _generate_customer_response
    (request : CustomerMessageRequest.t) (message_type : MessageType)
    (response_data : ResponseData) : M string :=
  match message_type with
  | bug_report =>
      ticket <- attr_ticket response_data ;;
      ret ("Thank you for reporting this issue. I've created a ticket (ID: "
             ++ TicketModel.id ticket
             ++ ") and assigned it to our "
             ++ TicketModel.assigned_team ticket
             ++ " team. They'll investigate this "
             ++ str_lower (TicketModel.severity ticket)
             ++ " priority issue and get back to you soon. We appreciate you helping us improve our product!")
  | feature_request =>
      requirement <- attr_product_requirement response_data ;;
      ret ("Thank you for your feature request! I've logged this as requirement "
             ++ ProductRequirementModel.id requirement
             ++ " and our product team will review it. We value your input and will consider this "
             ++ str_lower (ProductRequirementModel.business_value requirement)
             ++ " business value feature for future updates. We'll keep you updated on the progress.")
  | general_inquiry =>
      let inquiry := response_data in
      requires_human_review <- attr_requires_human_review inquiry ;;
      if requires_human_review then
        suggested_resources <- attr_suggested_resources inquiry ;;
        ret ("Thank you for your inquiry about "
               ++ CustomerMessageRequest.product request
               ++ ". This requires personal attention, so I've escalated it to our support team. They'll get back to you within 24 hours. In the meantime, you might find these resources helpful: "
               ++ join ", " (map SuggestedResource.title suggested_resources)
               ++ ".")
      else
        ret ("Thank you for your question about "
               ++ CustomerMessageRequest.product request
               ++ "! I hope the information provided helps. If you need further assistance, don't hesitate to reach out again.")
  end.

Definition classify_and_generate_response (request : CustomerMessageRequest.t)
    : M MainResponse.t :=
  classified <- _classify_message_type (CustomerMessageRequest.message request) ;;
  let '(message_type, confidence_score) := classified in
  response_data <- _generate_response_data request message_type ;;
  customer_response <- _generate_customer_response request message_type response_data ;;
  new_MainResponse message_type confidence_score response_data customer_response.

End CustomerSupportAIService.

(** * Vocabulary of the statements *)

(** The value a member of [MessageType] is written with. *)
Definition MessageType_value (t : MessageType) : string :=
  match t with
  | bug_report => "bug_report"
  | feature_request => "feature_request"
  | general_inquiry => "general_inquiry"
  end.

Definition InquiryCategory_value (c : InquiryCategory) : string :=
  match c with
  | account_management => "Account Management"
  | billing => "Billing"
  | usage_question => "Usage Question"
  | other => "Other"
  end.

(** A string that names no member. *)
Definition unknown_MessageType (v : json) : bool :=
  match v with
  | JStr s =>
      negb (String.eqb s "bug_report" || String.eqb s "feature_request"
            || String.eqb s "general_inquiry")
  | _ => true
  end.

Definition unknown_InquiryCategory (v : json) : bool :=
  match v with
  | JStr s =>
      negb (String.eqb s "Account Management" || String.eqb s "Billing"
            || String.eqb s "Usage Question" || String.eqb s "Other")
  | _ => true
  end.

Section PydanticChecks.
Context `{Lax}.

(** [list[str]] as a check on the items. *)
Fixpoint check_strs (l : list json) : option (list string) :=
  match l with
  | [] => Some []
  | x :: l' =>
      match check_str x with
      | Some y =>
          match check_strs l' with
          | Some ys => Some (y :: ys)
          | None => None
          end
      | None => None
      end
  end.

Definition check_list_str (v : json) : option (list string) :=
  match v with
  | JList l => check_strs l
  | _ => None
  end.

End PydanticChecks.

(** The id both extraction paths give a model: the prefix and the first
    four characters of the UUID made from [bytes], in upper case. *)
Definition short_id (prefix : string) (bytes : N) : string :=
  prefix ++ upper (substring 0 4 (UUID_str (UUID_int bytes))).

Definition bug_report_keys : list string :=
  ["title"; "severity"; "affected_components"; "reproduction_steps"; "priority";
   "assigned_team"].

Definition feature_request_keys : list string :=
  ["title"; "description"; "user_story"; "business_value"; "complexity_estimate";
   "affected_components"].

(** The object has no entry for one of [keys]. *)
Definition lacks_key (keys : list string) (m : gmap string json) : bool :=
  existsb (fun k => match m !! k with None => true | Some _ => false end) keys.

(** The completion fails JSON parsing, or is an object that lacks a key.
    JSON that is not an object is neither: subscripting it raises
    [TypeError]. *)
Definition parse_or_key_failure (keys : list string) (c : content) : bool :=
  match c with
  | not_json => true
  | json_text (JDict m) => lacks_key keys m
  | json_text _ => false
  end.

Definition variant_matches (t : MessageType) (response_data : ResponseData) : bool :=
  match t, response_data with
  | bug_report, IsTicketResponse _ => true
  | feature_request, IsProductRequirementResponse _ => true
  | general_inquiry, IsGeneralInquiryResponse _ => true
  | _, _ => false
  end.

Definition unit_interval (f : float) : bool :=
  PrimFloat.leb 0 f && PrimFloat.leb f 1.

(** A JSON number between 0 and 1. *)
Definition number_in_unit_interval (v : json) : bool :=
  match v with
  | JFloat f => unit_interval f
  | JInt z => Z.leb 0 z && Z.leb z 1
  | _ => false
  end.

(** The float [f] is the number [v] of the unit interval: the same double,
    or the double of the integer 0 or 1. *)
Definition score_equals (v : json) (f : float) : Prop :=
  match v with
  | JFloat g => f = g
  | JInt z => f = (if Z.eqb z 0 then 0 else 1)%float
  | _ => False
  end.

(** * Scenarios *)

Definition request_A : CustomerMessageRequest.t :=
  CustomerMessageRequest.mk "customer-1" "The app crashes when I click save" "Editor".

(** A random source whose UUIDs all start with [ab12]. *)
Definition random_A : nat -> N := fun _ => 0xab12cdef0123456789abcdef01234567%N.

(** The classifier's completion [{"classification": label, "confidence_score": score}] *)
Definition classified (label : string) (score : json) : content :=
  json_text (JDict (<["classification" := JStr label]> (<["confidence_score" := score]> ∅))).

(** A bug-report completion with all six keys. *)
Definition ticket_A : content :=
  json_text
    (JDict (<["title" := JStr "Crash on save"]>
           (<["severity" := JStr "High"]>
           (<["affected_components" := JList [JStr "Editor"]]>
           (<["reproduction_steps" := JList [JStr "Open a file"; JStr "Click save"]]>
           (<["priority" := JStr "Urgent"]>
           (<["assigned_team" := JStr "Engineering"]> ∅))))))).

(** A bug-report completion that has a title and nothing else. *)
Definition ticket_title_only : content :=
  json_text (JDict (<["title" := JStr "Crash on save"]> ∅)).

(** A feature-request completion with all six keys. *)
Definition requirement_B : content :=
  json_text
    (JDict (<["title" := JStr "Dark mode"]>
           (<["description" := JStr "A dark colour scheme"]>
           (<["user_story" := JStr "As a user, I want dark mode so that I can work at night"]>
           (<["business_value" := JStr "High - drives retention"]>
           (<["complexity_estimate" := JStr "Medium"]>
           (<["affected_components" := JList [JStr "UI"]]> ∅))))))).

(** General-inquiry completions without ["suggested_resources"]: one with a
    boolean under ["requires_human_review"], one with [null]. *)
Definition inquiry_C : gmap string json :=
  <["category" := JStr "Billing"]> (<["requires_human_review" := JBool false]> ∅).

Definition inquiry_null_review : gmap string json :=
  <["category" := JStr "Billing"]> (<["requires_human_review" := JNull]> ∅).

Definition world_A : World :=
  mkWorld [classified "bug_report" (JFloat 0.75); ticket_A] random_A 0.

(** Scenario B: a feature request with a complete requirement. *)
Definition world_B : World :=
  mkWorld [classified "feature_request" (JFloat 0.75); requirement_B] random_A 0.

(** Scenario C: a general inquiry that needs no human review. *)
Definition world_C : World :=
  mkWorld [classified "general_inquiry" (JFloat 0.5); json_text (JDict inquiry_C)] random_A 0.

(** A classifier completion that is not JSON, before a general-inquiry
    completion. *)
Definition world_no_json : World :=
  mkWorld [not_json; json_text (JDict inquiry_C)] random_A 0.

(** A classifier completion whose confidence score is 7. *)
Definition world_score_7 : World :=
  mkWorld [classified "bug_report" (JInt 7); ticket_A] random_A 0.

(** ** [main.py] *)

(** [os.getenv(key)] in the environment [environ] *)
Definition getenv (environ : gmap string string) (key : string) : option string :=
  environ !! key.

(** The truth value of what [os.getenv] gives: [None] and the empty string
    are false. *)
Definition truthy (value : option string) : bool :=
  match value with
  | Some (String _ _) => true
  | _ => false
  end.

(** [str(e)]: the message an exception was made with, or the text of an
    exception that came out of the service, of which the model keeps the
    class. *)
Inductive text : Type :=
  | message_text (s : string)
  | str_of (e : exn).

Module HTTPException.
Record t : Type := mk {
  status_code : Z;
  detail : text
}.
End HTTPException.

(** What the endpoint does: it returns a response or raises
    [HTTPException]. *)
Inductive answer : Type :=
  | response_200 (response : MainResponse.t)
  | raise_HTTPException (e : HTTPException.t).

(** [read_root()] *)
Definition read_root : gmap string json :=
  <["message" := JStr "Customer Support AI Service"]> (<["status" := JStr "running"]> ∅).

Section Endpoints.
Context `{Lax} {cm : CaseMapping}.

(** [process_customer_message(request)]: the [ValueError] of the missing
    key is raised inside the [try] statement, as is whatever the service
    raises; [except Exception] turns both into [HTTPException].  Making the
    service object calls nothing. *)
Definition process_customer_message
    (environ : gmap string string) (request : CustomerMessageRequest.t)
    : World -> answer * World :=
  fun w =>
    let OPENAI_API_KEY := getenv environ "OPENAI_API_KEY" in
    if negb (truthy OPENAI_API_KEY) then
      (raise_HTTPException
         (HTTPException.mk 500
            (message_text
               "OPENAI_API_KEY environment variable is required. Please add it to your .env file.")),
       w)
    else
      match classify_and_generate_response request w with
      | (Return response, w') => (response_200 response, w')
      | (Raise e, w') => (raise_HTTPException (HTTPException.mk 500 (str_of e)), w')
      end.

End Endpoints.

(** [health_check()] *)
Definition health_check (environ : gmap string string) : gmap string json :=
  <["status" := JStr "healthy"]>
    (<["message" := JStr "Application is running successfully"]>
       (<["openai_key_configured" := JBool (truthy (getenv environ "OPENAI_API_KEY"))]> ∅)).

(** * Vocabulary of the further statements *)

(** A JSON object, as opposed to any other JSON value. *)
Definition is_object (v : json) : bool :=
  match v with
  | JDict _ => true
  | _ => false
  end.

(** What [for x in v] accepts: lists, strings and dictionaries. *)
Definition iterable (v : json) : bool :=
  match v with
  | JList _ | JStr _ | JDict _ => true
  | _ => false
  end.

(** The completions on which the classifier takes its fallback: no JSON, an
    object without ["classification"], or an object with a known
    classification and no ["confidence_score"]. *)
Definition classifier_falls_back (c : content) : bool :=
  match c with
  | not_json => true
  | json_text (JDict m) =>
      match m !! "classification" with
      | None => true
      | Some label =>
          negb (unknown_MessageType label)
          && match m !! "confidence_score" with None => true | Some _ => false end
      end
  | json_text _ => false
  end.

(** The JSON object [{"title": ..., "url": ...}] of a resource. *)
Definition resource_json (r : SuggestedResource.t) : json :=
  JDict (<["title" := JStr (SuggestedResource.title r)]>
           (<["url" := JStr (SuggestedResource.url r)]> ∅)).

(** An upper-case hexadecimal digit. *)
Definition is_upper_hex (c : ascii) : bool :=
  existsb (Ascii.eqb c) (list_ascii_of_string "0123456789ABCDEF").

(** The fallback record of the general-inquiry stage. *)
Definition help_center : GeneralInquiryResponse.t :=
  GeneralInquiryResponse.mk other true
    [SuggestedResource.mk "Help Center" "https://help.example.com"].

(** The completions on which the general-inquiry stage takes its fallback
    for want of JSON or of a key, when the object lists no resources: no
    JSON, no ["category"], or a known category and no
    ["requires_human_review"]. *)
Definition inquiry_falls_back (c : content) : bool :=
  match c with
  | not_json => true
  | json_text (JDict m) =>
      match m !! "suggested_resources" with
      | Some _ => false
      | None =>
          match m !! "category" with
          | None => true
          | Some label =>
              negb (unknown_InquiryCategory label)
              && match m !! "requires_human_review" with None => true | Some _ => false end
          end
      end
  | json_text _ => false
  end.

Section ResourceReading.
Context `{Lax}.

(** The body of the comprehension over [suggested_resources] in
    [_generate_general_inquiry_data]. *)
Definition read_resource (resource : json) : M SuggestedResource.t :=
  title <- getitem resource "title" ;;
  url <- getitem resource "url" ;;
  new_SuggestedResource title url.

End ResourceReading.

(** The detail of the endpoint's answer when the key is missing. *)
Definition missing_key_message : string :=
  "OPENAI_API_KEY environment variable is required. Please add it to your .env file.".

(** * Properties *)

(** The rendering of a UUID stays folded in the proofs below. *)
Arguments short_id : simpl never.
Opaque UUID_str.

(** ** Running a computation *)

Lemma bind_Return {A B} (m : M A) (k : A -> M B) w a w' :
  m w = (Return a, w') -> bind m k w = k a w'.
Proof. intros E. unfold bind. rewrite E. reflexivity. Qed.

Lemma bind_Raise {A B} (m : M A) (k : A -> M B) w e w' :
  m w = (Raise e, w') -> bind m k w = (Raise e, w').
Proof. intros E. unfold bind. rewrite E. reflexivity. Qed.

Lemma or_ValidationError_run {A} (o : option A) w :
  or_ValidationError o w
  = (match o with Some a => Return a | None => Raise ValidationError end, w).
Proof. destruct o; reflexivity. Qed.

(** ** Members of the enumerations *)

Lemma to_MessageType_value t w :
  to_MessageType (JStr (MessageType_value t)) w = (Return t, w).
Proof. destruct t; reflexivity. Qed.

Lemma to_MessageType_unknown v w :
  unknown_MessageType v = true -> to_MessageType v w = (Raise ValueError, w).
Proof.
  destruct v; try reflexivity. simpl.
  destruct (String.eqb s "bug_report"); [discriminate|].
  destruct (String.eqb s "feature_request"); [discriminate|].
  destruct (String.eqb s "general_inquiry"); [discriminate|].
  reflexivity.
Qed.

Lemma to_MessageType_known v w :
  unknown_MessageType v = false -> exists t, to_MessageType v w = (Return t, w).
Proof.
  destruct v; try discriminate. simpl.
  destruct (String.eqb s "bug_report"); [eexists; reflexivity|].
  destruct (String.eqb s "feature_request"); [eexists; reflexivity|].
  destruct (String.eqb s "general_inquiry"); [eexists; reflexivity|].
  discriminate.
Qed.

Lemma to_InquiryCategory_value c w :
  to_InquiryCategory (JStr (InquiryCategory_value c)) w = (Return c, w).
Proof. destruct c; reflexivity. Qed.

Lemma to_InquiryCategory_unknown v w :
  unknown_InquiryCategory v = true -> to_InquiryCategory v w = (Raise ValueError, w).
Proof.
  destruct v; try reflexivity. simpl.
  destruct (String.eqb s "Account Management"); [discriminate|].
  destruct (String.eqb s "Billing"); [discriminate|].
  destruct (String.eqb s "Usage Question"); [discriminate|].
  destruct (String.eqb s "Other"); [discriminate|].
  reflexivity.
Qed.

(** ** Field validation leaves the world alone *)

Section PydanticFacts.
Context `{Lax}.

Lemma traverse_validate_str l w :
  traverse validate_str l w = or_ValidationError (check_strs l) w.
Proof.
  induction l as [|x l IH]; [reflexivity|].
  simpl. unfold bind.
  replace (validate_str x w) with (or_ValidationError (check_str x) w) by reflexivity.
  rewrite or_ValidationError_run.
  destruct (check_str x); [|reflexivity].
  rewrite IH, or_ValidationError_run.
  destruct (check_strs l); reflexivity.
Qed.

Lemma validate_list_str_run v w :
  validate_list_str v w = or_ValidationError (check_list_str v) w.
Proof.
  destruct v; try reflexivity. apply traverse_validate_str.
Qed.

(** What the constructor of [ProductRequirementModel] does with an id and
    a status that are strings: it keeps them, or refuses another field. *)
Lemma new_ProductRequirementModel_run i a b c d e f s w :
  match new_ProductRequirementModel (JStr i) a b c d e f (JStr s) w with
  | (Return r, w') =>
      w' = w /\ ProductRequirementModel.id r = i /\ ProductRequirementModel.status r = s
  | (Raise x, w') => w' = w /\ x = ValidationError
  end.
Proof.
  unfold new_ProductRequirementModel, bind, validate_str.
  rewrite or_ValidationError_run; simpl.
  rewrite or_ValidationError_run; destruct (check_str a); [|auto].
  rewrite or_ValidationError_run; destruct (check_str b); [|auto].
  rewrite or_ValidationError_run; destruct (check_str c); [|auto].
  rewrite or_ValidationError_run; destruct (check_str d); [|auto].
  rewrite or_ValidationError_run; destruct (check_str e); [|auto].
  rewrite validate_list_str_run, or_ValidationError_run.
  destruct (check_list_str f); [|auto].
  simpl. auto.
Qed.

End PydanticFacts.

(** ** The classifier *)

Ltac step_classifier :=
  unfold _classify_message_type, try_except, bind, json_loads, getitem, ret, raise;
  simpl.

(** A completion that is not JSON: the fallback. *)
Lemma classify_not_json message rest u d :
  _classify_message_type message (mkWorld (not_json :: rest) u d)
  = (Return (general_inquiry, JFloat 0.5), mkWorld rest u d).
Proof. reflexivity. Qed.

(** An object without ["classification"]: the fallback. *)
Lemma classify_no_classification message m rest u d :
  m !! "classification" = None ->
  _classify_message_type message (mkWorld (json_text (JDict m) :: rest) u d)
  = (Return (general_inquiry, JFloat 0.5), mkWorld rest u d).
Proof. intros E. step_classifier. rewrite E. reflexivity. Qed.

(** An object with a known classification and no ["confidence_score"]: the
    fallback. *)
Lemma classify_no_confidence_score message m t rest u d :
  m !! "classification" = Some (JStr (MessageType_value t)) ->
  m !! "confidence_score" = None ->
  _classify_message_type message (mkWorld (json_text (JDict m) :: rest) u d)
  = (Return (general_inquiry, JFloat 0.5), mkWorld rest u d).
Proof.
  intros E1 E2. step_classifier. rewrite E1.
  rewrite to_MessageType_value. rewrite E2. reflexivity.
Qed.

(** An object with both keys and a known classification: what was read. *)
Lemma classify_success message m t v rest u d :
  m !! "classification" = Some (JStr (MessageType_value t)) ->
  m !! "confidence_score" = Some v ->
  _classify_message_type message (mkWorld (json_text (JDict m) :: rest) u d)
  = (Return (t, v), mkWorld rest u d).
Proof.
  intros E1 E2. step_classifier. rewrite E1.
  rewrite to_MessageType_value. rewrite E2. reflexivity.
Qed.

(** An object whose classification names no member: [ValueError] leaves the
    [try] statement, whose clause lists [JSONDecodeError] and [KeyError]. *)
Lemma classify_unknown_classification message m v rest u d :
  m !! "classification" = Some v ->
  unknown_MessageType v = true ->
  _classify_message_type message (mkWorld (json_text (JDict m) :: rest) u d)
  = (Raise ValueError, mkWorld rest u d).
Proof.
  intros E1 E2. step_classifier. rewrite E1.
  rewrite (to_MessageType_unknown _ _ E2). reflexivity.
Qed.

(** JSON that is not an object: [TypeError] leaves the [try] statement. *)
Lemma classify_not_an_object message v rest u d :
  (forall m, v <> JDict m) ->
  _classify_message_type message (mkWorld (json_text v :: rest) u d)
  = (Raise TypeError, mkWorld rest u d).
Proof.
  intros E. destruct v; try reflexivity. destruct (E m). reflexivity.
Qed.

(** C1 (the code at the failing input).  The completion
    [{"classification": "complaint", "confidence_score": 0.5}] is valid
    JSON with both keys, and "complaint" names no member of [MessageType]:
    [_classify_message_type] raises [ValueError] and does not return
    [(general_inquiry, 0.5)]. *)
Theorem C1_unknown_classification_raises message rest u d :
  _classify_message_type message
    (mkWorld
       (json_text (JDict (<["classification" := JStr "complaint"]>
                            (<["confidence_score" := JFloat 0.5]> ∅))) :: rest)
       u d)
  = (Raise ValueError, mkWorld rest u d).
Proof. apply classify_unknown_classification with (v := JStr "complaint"); reflexivity. Qed.

(** Where the score returned by the classifier comes from. *)
Lemma classify_score message c rest u d t v w1 :
  _classify_message_type message (mkWorld (c :: rest) u d) = (Return (t, v), w1) ->
  v = JFloat 0.5
  \/ exists m, c = json_text (JDict m) /\ m !! "confidence_score" = Some v.
Proof.
  destruct c as [|j].
  - intros E. injection E as _ <- _. auto.
  - destruct j; try discriminate.
    step_classifier.
    destruct (m !! "classification") as [cl|];
      [|intros E; injection E as _ <- _; auto].
    destruct (unknown_MessageType cl) eqn:K.
    + rewrite (to_MessageType_unknown _ _ K). discriminate.
    + destruct (to_MessageType_known cl (mkWorld rest u d) K) as (t0 & ->).
      destruct (m !! "confidence_score") as [sc|] eqn:S.
      * intros E. injection E as _ <- _. right. exists m. auto.
      * intros E. injection E as _ <- _. auto.
Qed.

(** ** Extraction of bug reports and feature requests *)

Lemma startswith_app p s : startswith p (p ++ s) = true.
Proof.
  unfold startswith. induction p as [|a p IH]; simpl.
  - destruct s; reflexivity.
  - destruct (ascii_dec a a); [exact IH | congruence].
Qed.

Lemma short_id_startswith p bytes : startswith p (short_id p bytes) = true.
Proof. apply startswith_app. Qed.

Ltac open_extraction :=
  unfold _generate_bug_report_data, _generate_feature_request_data,
    _generate_general_inquiry_data, try_except, bind, create, json_loads,
    uuid4, getitem, get, ret, raise.

(** X23.  When the completion of the bug-report stage fails JSON parsing,
    or is an object lacking one of the six keys, [_generate_bug_report_data]
    returns the fixed ticket (title "Bug Report", severity and priority
    "Medium", team "Support Team", components ["General"], one placeholder
    reproduction step) under an id made from a UUID drawn in this call: the
    id starts with "BUG-" and is not empty.  Nothing is raised. *)
Theorem bug_report_fallback `{Lax} request c rest u d :
  parse_or_key_failure bug_report_keys c = true ->
  exists n,
    (n = d \/ n = S d)
    /\ _generate_bug_report_data request (mkWorld (c :: rest) u d)
       = (Return
            (TicketResponse.mk
               (TicketModel.mk (short_id "BUG-" (u n)) "Bug Report" "Medium" ["General"]
                  ["Steps to reproduce not specified"] "Medium" "Support Team")),
          mkWorld rest u (S n))
    /\ startswith "BUG-" (short_id "BUG-" (u n)) = true
    /\ short_id "BUG-" (u n) <> EmptyString.
Proof.
  intros Hc.
  assert (Hid : forall n, startswith "BUG-" (short_id "BUG-" (u n)) = true
                          /\ short_id "BUG-" (u n) <> EmptyString).
  { intros n. split; [apply short_id_startswith | discriminate]. }
  destruct c as [|v].
  - exists d. split; [auto|]. split; [reflexivity | apply Hid].
  - destruct v; try discriminate Hc.
    exists (S d). split; [auto|]. split; [|apply Hid].
    revert Hc. unfold parse_or_key_failure, lacks_key, bug_report_keys, existsb.
    open_extraction. simpl.
    destruct (m !! "title"); [|reflexivity].
    destruct (m !! "severity"); [|reflexivity].
    destruct (m !! "affected_components"); [|reflexivity].
    destruct (m !! "reproduction_steps"); [|reflexivity].
    destruct (m !! "priority"); [|reflexivity].
    destruct (m !! "assigned_team"); [|reflexivity].
    discriminate.
Qed.

(** X23 at a completion that has a title and no other key. *)
Lemma bug_report_fallback_witness :
  parse_or_key_failure bug_report_keys ticket_title_only = true
  /\ exists n,
       (n = 0 \/ n = 1)
       /\ _generate_bug_report_data (H := exact_types) request_A
            (mkWorld [ticket_title_only] random_A 0)
          = (Return
               (TicketResponse.mk
                  (TicketModel.mk (short_id "BUG-" (random_A n)) "Bug Report" "Medium"
                     ["General"] ["Steps to reproduce not specified"] "Medium"
                     "Support Team")),
             mkWorld [] random_A (S n))
       /\ startswith "BUG-" (short_id "BUG-" (random_A n)) = true
       /\ short_id "BUG-" (random_A n) <> EmptyString.
Proof.
  split; [vm_compute; reflexivity|].
  apply (bug_report_fallback (H := exact_types) request_A ticket_title_only [] random_A 0).
  vm_compute; reflexivity.
Defined.

(** JSON that is not an object: [data["title"]] raises [TypeError], which
    leaves the [try] statement, after the UUID of the id was drawn. *)
Lemma bug_report_not_an_object `{Lax} request v rest u d :
  (forall m, v <> JDict m) ->
  _generate_bug_report_data request (mkWorld (json_text v :: rest) u d)
  = (Raise TypeError, mkWorld rest u (S d)).
Proof.
  intros E. destruct v; try reflexivity. destruct (E m). reflexivity.
Qed.

(** C4 (the code at the failing input).  The completion [[]] is valid JSON
    and has none of the six keys.  [data["title"]] on a list raises
    [TypeError], which the clause [except (json.JSONDecodeError, KeyError)]
    does not list: [_generate_bug_report_data] raises, after drawing the
    UUID of the id, and returns no fallback ticket. *)
Theorem C4_not_an_object_raises `{Lax} request rest u d :
  _generate_bug_report_data request (mkWorld (json_text (JList []) :: rest) u d)
  = (Raise TypeError, mkWorld rest u (S d)).
Proof. reflexivity. Qed.

(** C5.  Whatever the completion of the feature-request stage, the model
    that [_generate_feature_request_data] returns has status "Under Review"
    and an id that starts with "FR-": on the success path and on the
    fallback path.  The fallback path (no JSON, or an object lacking a key)
    always returns. *)
Theorem C5_feature_request_status_and_id `{Lax} request :
  (forall w r w',
      _generate_feature_request_data request w = (Return r, w') ->
      ProductRequirementModel.status (ProductRequirementResponse.product_requirement r)
      = "Under Review"
      /\ startswith "FR-"
           (ProductRequirementModel.id (ProductRequirementResponse.product_requirement r))
         = true)
  /\ (forall c rest u d,
         parse_or_key_failure feature_request_keys c = true ->
         exists r w',
           _generate_feature_request_data request (mkWorld (c :: rest) u d) = (Return r, w')).
Proof.
  split.
  - intros [cs u d] r w'. destruct cs as [|c rest]; [discriminate|].
    destruct c as [|v].
    + intros E. injection E as <- _. split; [reflexivity | apply short_id_startswith].
    + destruct v; try discriminate.
      open_extraction. simpl.
      destruct (m !! "title");
        [|intros E; injection E as <- _; split; [reflexivity | apply short_id_startswith]].
      destruct (m !! "description");
        [|intros E; injection E as <- _; split; [reflexivity | apply short_id_startswith]].
      destruct (m !! "user_story");
        [|intros E; injection E as <- _; split; [reflexivity | apply short_id_startswith]].
      destruct (m !! "business_value");
        [|intros E; injection E as <- _; split; [reflexivity | apply short_id_startswith]].
      destruct (m !! "complexity_estimate");
        [|intros E; injection E as <- _; split; [reflexivity | apply short_id_startswith]].
      destruct (m !! "affected_components");
        [|intros E; injection E as <- _; split; [reflexivity | apply short_id_startswith]].
      match goal with
      | |- context [new_ProductRequirementModel (JStr ?i) ?a ?b ?c ?d ?e ?f (JStr ?s) ?w] =>
          pose proof (new_ProductRequirementModel_run i a b c d e f s w) as R;
          destruct (new_ProductRequirementModel (JStr i) a b c d e f (JStr s) w)
            as [[r0|x] w0]
      end.
      * destruct R as (-> & Hi & Hs). intros E. injection E as <- _.
        simpl. rewrite Hi, Hs. split; [reflexivity | apply startswith_app].
      * destruct R as (-> & ->). discriminate.
  - intros c rest u d Hc. destruct c as [|v].
    + eexists _, _. reflexivity.
    + destruct v; try discriminate Hc.
      revert Hc. unfold parse_or_key_failure, lacks_key, feature_request_keys, existsb.
      open_extraction. simpl.
      destruct (m !! "title"); [|intros _; eexists _, _; reflexivity].
      destruct (m !! "description"); [|intros _; eexists _, _; reflexivity].
      destruct (m !! "user_story"); [|intros _; eexists _, _; reflexivity].
      destruct (m !! "business_value"); [|intros _; eexists _, _; reflexivity].
      destruct (m !! "complexity_estimate"); [|intros _; eexists _, _; reflexivity].
      destruct (m !! "affected_components"); [|intros _; eexists _, _; reflexivity].
      discriminate.
Qed.

(** C5 on the success path (a complete requirement) and on the fallback
    path (no JSON). *)
Lemma C5_witness :
  (exists r w',
      _generate_feature_request_data (H := exact_types) request_A
        (mkWorld [requirement_B] random_A 0) = (Return r, w')
      /\ ProductRequirementModel.status (ProductRequirementResponse.product_requirement r)
         = "Under Review"
      /\ startswith "FR-"
           (ProductRequirementModel.id (ProductRequirementResponse.product_requirement r))
         = true)
  /\ (parse_or_key_failure feature_request_keys not_json = true
      /\ exists r w',
           _generate_feature_request_data (H := exact_types) request_A
             (mkWorld [not_json] random_A 0) = (Return r, w')).
Proof.
  split.
  - destruct (_generate_feature_request_data (H := exact_types) request_A
                (mkWorld [requirement_B] random_A 0)) as [[r|e] w'] eqn:E.
    + exists r, w'. split; [reflexivity|].
      exact (proj1 (C5_feature_request_status_and_id (H := exact_types) request_A) _ r w' E).
    + vm_compute in E. discriminate E.
  - split; [reflexivity|].
    apply (proj2 (C5_feature_request_status_and_id (H := exact_types) request_A)
             not_json [] random_A 0).
    reflexivity.
Defined.

(** ** Extraction of general inquiries *)

Lemma general_inquiry_not_json `{Lax} request rest u d :
  _generate_general_inquiry_data request (mkWorld (not_json :: rest) u d)
  = (Return
       (GeneralInquiryResponse.mk other true
          [SuggestedResource.mk "Help Center" "https://help.example.com"]),
     mkWorld rest u d).
Proof. reflexivity. Qed.

(** An object without ["category"] (and nothing under
    ["suggested_resources"]): the fallback. *)
Lemma general_inquiry_no_category `{Lax} request m rest u d :
  m !! "suggested_resources" = None ->
  m !! "category" = None ->
  _generate_general_inquiry_data request (mkWorld (json_text (JDict m) :: rest) u d)
  = (Return
       (GeneralInquiryResponse.mk other true
          [SuggestedResource.mk "Help Center" "https://help.example.com"]),
     mkWorld rest u d).
Proof.
  intros E1 E2. open_extraction. simpl. rewrite E1. simpl. rewrite E2. reflexivity.
Qed.

(** An object whose category names no member: [ValueError] leaves the [try]
    statement. *)
Lemma general_inquiry_unknown_category `{Lax} request m v rest u d :
  m !! "suggested_resources" = None ->
  m !! "category" = Some v ->
  unknown_InquiryCategory v = true ->
  _generate_general_inquiry_data request (mkWorld (json_text (JDict m) :: rest) u d)
  = (Raise ValueError, mkWorld rest u d).
Proof.
  intros E1 E2 E3. open_extraction. simpl. rewrite E1. simpl. rewrite E2.
  rewrite (to_InquiryCategory_unknown _ _ E3). reflexivity.
Qed.

(** C2 (the code at the failing input).  The completion
    [{"category": "Complaint", "requires_human_review": false}] is valid
    JSON with the required keys, and "Complaint" names no member of
    [InquiryCategory]: [_generate_general_inquiry_data] raises [ValueError]
    and does not return the fallback record. *)
Theorem C2_unknown_category_raises `{Lax} request rest u d :
  _generate_general_inquiry_data request
    (mkWorld
       (json_text (JDict (<["category" := JStr "Complaint"]>
                            (<["requires_human_review" := JBool false]> ∅))) :: rest)
       u d)
  = (Raise ValueError, mkWorld rest u d).
Proof.
  apply general_inquiry_unknown_category with (v := JStr "Complaint"); reflexivity.
Qed.

Lemma general_inquiry_review_refused `{Lax} request m cat v rest u d :
  m !! "category" = Some (JStr (InquiryCategory_value cat)) ->
  m !! "requires_human_review" = Some v ->
  check_bool v = None ->
  m !! "suggested_resources" = None ->
  _generate_general_inquiry_data request (mkWorld (json_text (JDict m) :: rest) u d)
  = (Raise ValidationError, mkWorld rest u d).
Proof.
  intros E1 E2 E3 E4. open_extraction. simpl. rewrite E4. simpl. rewrite E1.
  rewrite to_InquiryCategory_value. rewrite E2.
  unfold new_GeneralInquiryResponse, bind, validate_bool.
  rewrite or_ValidationError_run, E3. reflexivity.
Qed.

(** C10 as it is stated fails: the completion
    [{"category": "Billing", "requires_human_review": null}] has both keys,
    a recognised category and no ["suggested_resources"], and the stage
    raises [ValidationError], whatever the conversion rules: [None] is not a
    [bool]. *)
Lemma C10_counterexample :
  (inquiry_null_review !! "category" = Some (JStr "Billing")
   /\ inquiry_null_review !! "requires_human_review" = Some JNull
   /\ inquiry_null_review !! "suggested_resources" = None)
  /\ forall (L : Lax) request rest u d,
       _generate_general_inquiry_data (H := L) request
         (mkWorld (json_text (JDict inquiry_null_review) :: rest) u d)
       = (Raise ValidationError, mkWorld rest u d).
Proof.
  split; [repeat split; reflexivity|].
  intros L request rest u d.
  apply (general_inquiry_review_refused (H := L) request inquiry_null_review billing JNull);
    reflexivity.
Qed.

(** C10, as amended.  An object with a recognised ["category"], a
    ["requires_human_review"] that fits a [bool] field, and no
    ["suggested_resources"]: the stage succeeds with that category, that
    boolean and no resource; the fallback record is not used. *)
Theorem C10_missing_suggested_resources `{Lax} request m cat v b rest u d :
  m !! "category" = Some (JStr (InquiryCategory_value cat)) ->
  m !! "requires_human_review" = Some v ->
  check_bool v = Some b ->
  m !! "suggested_resources" = None ->
  _generate_general_inquiry_data request (mkWorld (json_text (JDict m) :: rest) u d)
  = (Return (GeneralInquiryResponse.mk cat b []), mkWorld rest u d).
Proof.
  intros E1 E2 E3 E4. open_extraction. simpl. rewrite E4. simpl. rewrite E1.
  rewrite to_InquiryCategory_value. rewrite E2.
  unfold new_GeneralInquiryResponse, bind, validate_bool.
  rewrite or_ValidationError_run, E3. reflexivity.
Qed.

(** C10, as amended, at [{"category": "Billing", "requires_human_review": false}]. *)
Lemma C10_witness :
  _generate_general_inquiry_data (H := exact_types) request_A
    (mkWorld [json_text (JDict inquiry_C)] random_A 0)
  = (Return (GeneralInquiryResponse.mk billing false []), mkWorld [] random_A 0).
Proof.
  apply (C10_missing_suggested_resources (H := exact_types) request_A inquiry_C billing
           (JBool false) false [] random_A 0); reflexivity.
Defined.

(** ** The composer *)

(** C8.  [_generate_customer_response] is a function of its three
    arguments: its outcome does not depend on the world, and it leaves the
    world as it found it (no completion is consumed, nothing is drawn from
    the random source).  The outcome is a string when the data is of the
    class that goes with the message type, [AttributeError] otherwise. *)
Theorem C8_composer_is_pure {cm : CaseMapping} request message_type response_data :
  exists o,
    (forall w, _generate_customer_response request message_type response_data w = (o, w))
    /\ (if variant_matches message_type response_data
        then exists s, o = Return s
        else o = Raise AttributeError).
Proof.
  destruct message_type, response_data as [r|r|r]; simpl;
    try (eexists; split; [intros w; reflexivity | simpl; eauto]).
  unfold _generate_customer_response, bind. simpl.
  destruct (GeneralInquiryResponse.requires_human_review r);
    (eexists; split; [intros w; reflexivity | simpl; eauto]).
Qed.

Lemma append_assoc (a b c : string) : (a ++ b) ++ c = a ++ b ++ c.
Proof.
  induction a as [|x a IH]; [reflexivity|].
  change (String x ((a ++ b) ++ c) = String x (a ++ b ++ c)).
  rewrite IH. reflexivity.
Qed.

Lemma contains_here (before needle after : string) :
  contains (before ++ needle ++ after) needle.
Proof. exists before, after. reflexivity. Qed.

Lemma contains_later (head s needle : string) :
  contains s needle -> contains (head ++ s) needle.
Proof.
  intros (before & after & ->). exists (head ++ before), after.
  rewrite append_assoc. reflexivity.
Qed.

(** C9.  The reply to a bug report quotes the ticket's id, its assigned
    team and its severity as [str.lower] gives it, whatever the severity
    and whatever [str.lower] does outside ASCII.  For the ticket "BUG-AB12"
    of severity "High" assigned to "Engineering", the reply contains
    "BUG-AB12", "Engineering" and "high". *)
Theorem C9_bug_report_reply_cites_ticket {cm : CaseMapping} :
  (forall request ticket w,
      exists s,
        _generate_customer_response request bug_report
          (IsTicketResponse (TicketResponse.mk ticket)) w = (Return s, w)
        /\ contains s (TicketModel.id ticket)
        /\ contains s (TicketModel.assigned_team ticket)
        /\ contains s (str_lower (TicketModel.severity ticket)))
  /\ (forall request title components steps priority w,
         exists s,
           _generate_customer_response request bug_report
             (IsTicketResponse
                (TicketResponse.mk
                   (TicketModel.mk "BUG-AB12" title "High" components steps priority
                      "Engineering"))) w = (Return s, w)
           /\ contains s "BUG-AB12"
           /\ contains s "Engineering"
           /\ contains s "high").
Proof.
  assert (G : forall request ticket w,
      exists s,
        _generate_customer_response request bug_report
          (IsTicketResponse (TicketResponse.mk ticket)) w = (Return s, w)
        /\ contains s (TicketModel.id ticket)
        /\ contains s (TicketModel.assigned_team ticket)
        /\ contains s (str_lower (TicketModel.severity ticket))).
  { intros request ticket w. eexists. split; [reflexivity|].
    split; [apply contains_here|].
    split.
    - do 2 apply contains_later. apply contains_here.
    - do 4 apply contains_later. apply contains_here. }
  split; [exact G|].
  intros request title components steps priority w.
  destruct (G request
              (TicketModel.mk "BUG-AB12" title "High" components steps priority "Engineering")
              w) as (s & R & Hid & Hteam & Hsev).
  exists s. repeat split; try assumption.
  simpl in Hsev. rewrite (str_lower_ascii "High" eq_refl) in Hsev. exact Hsev.
Qed.

(** ** The orchestrator *)

Lemma generate_response_data_variant `{Lax} request t w response_data w' :
  _generate_response_data request t w = (Return response_data, w') ->
  variant_matches t response_data = true.
Proof.
  destruct t; unfold _generate_response_data, bind.
  - destruct (_generate_bug_report_data request w) as [[r|e] w1]; intros E;
      inversion E; reflexivity.
  - destruct (_generate_feature_request_data request w) as [[r|e] w1]; intros E;
      inversion E; reflexivity.
  - destruct (_generate_general_inquiry_data request w) as [[r|e] w1]; intros E;
      inversion E; reflexivity.
Qed.

Lemma customer_response_of_variant {cm : CaseMapping} request t response_data :
  variant_matches t response_data = true ->
  exists s, forall w,
    _generate_customer_response request t response_data w = (Return s, w).
Proof.
  destruct t, response_data as [r|r|r]; try discriminate; intros _.
  - eexists. intros w. reflexivity.
  - eexists. intros w. reflexivity.
  - unfold _generate_customer_response, bind. simpl.
    destruct (GeneralInquiryResponse.requires_human_review r);
      eexists; intros w; reflexivity.
Qed.

(** C3.  [_generate_response_data] answers each message type with the data
    of its own class, made by the stage of that type: a [TicketResponse]
    from the bug-report stage for [bug_report], a
    [ProductRequirementResponse] from the feature-request stage for
    [feature_request], a [GeneralInquiryResponse] from the general-inquiry
    stage for [general_inquiry].  The envelope that
    [classify_and_generate_response] returns carries the message type the
    classifier returned and the data the dispatch made for that type, so
    its data is of the class that goes with its message type. *)
Theorem C3_response_data_matches_message_type `{Lax} {cm : CaseMapping} request :
  (forall t w response_data w',
      _generate_response_data request t w = (Return response_data, w') ->
      variant_matches t response_data = true)
  /\ (forall w r w',
         _generate_bug_report_data request w = (Return r, w') ->
         _generate_response_data request bug_report w = (Return (IsTicketResponse r), w'))
  /\ (forall w r w',
         _generate_feature_request_data request w = (Return r, w') ->
         _generate_response_data request feature_request w
         = (Return (IsProductRequirementResponse r), w'))
  /\ (forall w r w',
         _generate_general_inquiry_data request w = (Return r, w') ->
         _generate_response_data request general_inquiry w
         = (Return (IsGeneralInquiryResponse r), w'))
  /\ (forall w resp w',
         classify_and_generate_response request w = (Return resp, w') ->
         variant_matches (MainResponse.message_type resp) (MainResponse.response_data resp)
         = true
         /\ exists v w1 w2,
              _classify_message_type (CustomerMessageRequest.message request) w
              = (Return (MainResponse.message_type resp, v), w1)
              /\ _generate_response_data request (MainResponse.message_type resp) w1
                 = (Return (MainResponse.response_data resp), w2)).
Proof.
  split; [intros t w rd w'; apply generate_response_data_variant|].
  split; [intros w r w' E; unfold _generate_response_data; rewrite (bind_Return _ _ _ _ _ E); reflexivity|].
  split; [intros w r w' E; unfold _generate_response_data; rewrite (bind_Return _ _ _ _ _ E); reflexivity|].
  split; [intros w r w' E; unfold _generate_response_data; rewrite (bind_Return _ _ _ _ _ E); reflexivity|].
  intros w resp w'. unfold classify_and_generate_response, bind.
  destruct (_classify_message_type _ w) as [[[t v]|e] w1]; [|discriminate].
  destruct (_generate_response_data request t w1) as [[rd|e] w2] eqn:E; [|discriminate].
  pose proof (generate_response_data_variant _ _ _ _ _ E) as V.
  destruct (_generate_customer_response request t rd w2) as [[s|e] w3]; [|discriminate].
  unfold new_MainResponse, bind, validate_float. rewrite or_ValidationError_run.
  destruct (check_float v); [|discriminate].
  intros R. injection R as <- _. simpl. split; [exact V|].
  exists v, w1, w2. auto.
Qed.

Ltac run_scenario thm :=
  match goal with
  | |- exists resp w', ?run = (Return resp, w') /\ _ =>
      let E := fresh "E" in
      destruct run as [[resp|e] w'] eqn:E;
      [ exists resp, w'; split; [reflexivity|];
        split; [exact (proj1 (thm _ _ _ E)) | vm_compute in E; injection E as <- _; reflexivity]
      | vm_compute in E; discriminate E ]
  end.

(** C3 at the three scenarios: a bug report, a feature request and a
    general inquiry go through, each with the data of its class. *)
Lemma C3_witness :
  (exists resp w',
      classify_and_generate_response (H := exact_types) (cm := ascii_text) request_A world_A
      = (Return resp, w')
      /\ variant_matches (MainResponse.message_type resp) (MainResponse.response_data resp)
         = true
      /\ MainResponse.message_type resp = bug_report)
  /\ (exists resp w',
         classify_and_generate_response (H := exact_types) (cm := ascii_text) request_A world_B
         = (Return resp, w')
         /\ variant_matches (MainResponse.message_type resp) (MainResponse.response_data resp)
            = true
         /\ MainResponse.message_type resp = feature_request)
  /\ (exists resp w',
         classify_and_generate_response (H := exact_types) (cm := ascii_text) request_A world_C
         = (Return resp, w')
         /\ variant_matches (MainResponse.message_type resp) (MainResponse.response_data resp)
            = true
         /\ MainResponse.message_type resp = general_inquiry).
Proof.
  pose proof (proj2 (proj2 (proj2 (proj2
    (C3_response_data_matches_message_type (H := exact_types) (cm := ascii_text) request_A)))))
    as T.
  split; [run_scenario T|]. split; run_scenario T.
Defined.

(** Scenario A from end to end: the classifier answers bug_report with
    confidence 0.75, the extractor a complete ticket, the UUID starts with
    ab12. *)
Example scenario_A :
  classify_and_generate_response (H := exact_types) (cm := ascii_text) request_A world_A
  = (Return
       (MainResponse.mk bug_report 0.75
          (IsTicketResponse
             (TicketResponse.mk
                (TicketModel.mk "BUG-AB12" "Crash on save" "High" ["Editor"]
                   ["Open a file"; "Click save"] "Urgent" "Engineering")))
          "Thank you for reporting this issue. I've created a ticket (ID: BUG-AB12) and assigned it to our Engineering team. They'll investigate this high priority issue and get back to you soon. We appreciate you helping us improve our product!"),
     mkWorld [] random_A 1).
Proof. vm_compute. reflexivity. Qed.

(** Scenario C: a general inquiry that needs no human review. *)
Example scenario_C :
  classify_and_generate_response (H := exact_types) (cm := ascii_text) request_A
    (mkWorld [classified "general_inquiry" (JFloat 0.5); json_text (JDict inquiry_C)]
       random_A 0)
  = (Return
       (MainResponse.mk general_inquiry 0.5
          (IsGeneralInquiryResponse (GeneralInquiryResponse.mk billing false []))
          "Thank you for your question about Editor! I hope the information provided helps. If you need further assistance, don't hesitate to reach out again."),
     mkWorld [] random_A 0).
Proof. vm_compute. reflexivity. Qed.

(** An unknown classification ends the whole request with [ValueError]:
    nothing is extracted. *)
Example scenario_unknown_classification `{Lax} {cm : CaseMapping} :
  classify_and_generate_response request_A
    (mkWorld [classified "complaint" (JFloat 0.5); ticket_A] random_A 0)
  = (Raise ValueError, mkWorld [ticket_A] random_A 0).
Proof.
  unfold classify_and_generate_response.
  apply bind_Raise.
  apply classify_unknown_classification with (v := JStr "complaint"); reflexivity.
Qed.

Lemma unit_interval_number `{Lax} v :
  number_in_unit_interval v = true ->
  exists f, check_float v = Some f /\ score_equals v f /\ unit_interval f = true.
Proof.
  destruct v; try discriminate; simpl.
  - intros B. apply andb_prop in B as [B0 B1].
    apply Z.leb_le in B0. apply Z.leb_le in B1.
    assert (z = 0 \/ z = 1)%Z as [-> | ->] by lia;
      (eexists; split; [vm_compute; reflexivity | split; vm_compute; reflexivity]).
  - intros B. exists f. auto.
Qed.

(** C6.  A confidence score between 0 and 1 that the classifier reads from
    its completion is the confidence score of the envelope: the double that
    was read, or the double of the integer 0 or 1.  It is neither rounded
    nor clamped. *)
Theorem C6_confidence_score_passed_through `{Lax} {cm : CaseMapping} request m t v rest u d :
  m !! "classification" = Some (JStr (MessageType_value t)) ->
  m !! "confidence_score" = Some v ->
  number_in_unit_interval v = true ->
  _classify_message_type (CustomerMessageRequest.message request)
    (mkWorld (json_text (JDict m) :: rest) u d)
  = (Return (t, v), mkWorld rest u d)
  /\ forall response_data w',
       _generate_response_data request t (mkWorld rest u d) = (Return response_data, w') ->
       exists resp,
         classify_and_generate_response request (mkWorld (json_text (JDict m) :: rest) u d)
         = (Return resp, w')
         /\ MainResponse.message_type resp = t
         /\ MainResponse.response_data resp = response_data
         /\ score_equals v (MainResponse.confidence_score resp).
Proof.
  intros E1 E2 B.
  pose proof (classify_success (CustomerMessageRequest.message request) m t v rest u d E1 E2)
    as C.
  split; [exact C|].
  intros rd w' G.
  destruct (unit_interval_number v B) as (f & F & S & _).
  destruct (customer_response_of_variant request t rd (generate_response_data_variant _ _ _ _ _ G))
    as (s & Hs).
  exists (MainResponse.mk t f rd s).
  split; [|auto].
  unfold classify_and_generate_response.
  rewrite (bind_Return _ _ _ _ _ C).
  rewrite (bind_Return _ _ _ _ _ G).
  rewrite (bind_Return _ _ _ _ _ (Hs w')).
  unfold new_MainResponse, bind, validate_float.
  rewrite or_ValidationError_run, F. reflexivity.
Qed.

(** C6 at the edge value 1.0. *)
Lemma C6_witness :
  exists response_data w' resp,
    _generate_response_data (H := exact_types) request_A bug_report
      (mkWorld [ticket_A] random_A 0) = (Return response_data, w')
    /\ classify_and_generate_response (H := exact_types) (cm := ascii_text) request_A
         (mkWorld [classified "bug_report" (JFloat 1); ticket_A] random_A 0)
       = (Return resp, w')
    /\ MainResponse.confidence_score resp = 1%float.
Proof.
  pose (m := <["classification" := JStr "bug_report"]>
               (<["confidence_score" := JFloat 1]> (∅ : gmap string json))).
  assert (E1 : m !! "classification" = Some (JStr (MessageType_value bug_report)))
    by (vm_compute; reflexivity).
  assert (E2 : m !! "confidence_score" = Some (JFloat 1)) by (vm_compute; reflexivity).
  assert (B : number_in_unit_interval (JFloat 1) = true) by (vm_compute; reflexivity).
  destruct (_generate_response_data (H := exact_types) request_A bug_report
              (mkWorld [ticket_A] random_A 0)) as [[rd|e] w'] eqn:G.
  - destruct (proj2 (C6_confidence_score_passed_through (H := exact_types) (cm := ascii_text) request_A
                       m bug_report (JFloat 1) [ticket_A] random_A 0 E1 E2 B) rd w' G)
      as (resp & R & _ & _ & S).
    exists rd, w', resp. auto.
  - vm_compute in G. discriminate G.
Defined.

(** C7 as it is stated fails: the classifier's completion
    [{"classification": "bug_report", "confidence_score": 7}] goes through
    the pipeline, whatever the conversion rules, and the envelope carries a
    confidence score of 7. *)
Lemma C7_counterexample :
  exists w',
    forall (L : Lax) (T : CaseMapping),
    exists resp,
      classify_and_generate_response (H := L) (cm := T) request_A world_score_7
      = (Return resp, w')
      /\ MainResponse.confidence_score resp = 7%float
      /\ unit_interval (MainResponse.confidence_score resp) = false.
Proof.
  eexists. intros L T. eexists (MainResponse.mk bug_report 7%float _ _).
  split; [vm_compute; reflexivity | split; reflexivity].
Qed.

Lemma classify_falls_back_run message c rest u d :
  classifier_falls_back c = true ->
  _classify_message_type message (mkWorld (c :: rest) u d)
  = (Return (general_inquiry, JFloat 0.5), mkWorld rest u d).
Proof.
  destruct c as [|j]; [reflexivity|].
  destruct j; try discriminate. simpl.
  destruct (m !! "classification") as [label|] eqn:L;
    [|intros _; apply classify_no_classification; exact L].
  destruct (unknown_MessageType label) eqn:K; [discriminate|].
  destruct (m !! "confidence_score") eqn:S; [discriminate|]. intros _.
  step_classifier. rewrite L.
  destruct (to_MessageType_known label (mkWorld rest u d) K) as (t & ->).
  rewrite S. reflexivity.
Qed.

(** C7, as amended.  The confidence score of the envelope lies between 0
    and 1 whenever the confidence score in the classifier's completion, if
    there is one, is a number between 0 and 1.  When the classifier takes
    its fallback (a completion that is not JSON, an object without
    ["classification"], or one with a known classification and no
    ["confidence_score"]), the envelope is a general inquiry with the
    confidence score 0.5. *)
Theorem C7_confidence_score_bound `{Lax} {cm : CaseMapping} request c rest u d resp w' :
  classify_and_generate_response request (mkWorld (c :: rest) u d) = (Return resp, w') ->
  ((forall m v,
       c = json_text (JDict m) -> m !! "confidence_score" = Some v ->
       number_in_unit_interval v = true) ->
   unit_interval (MainResponse.confidence_score resp) = true)
  /\ (classifier_falls_back c = true ->
      MainResponse.confidence_score resp = 0.5%float
      /\ MainResponse.message_type resp = general_inquiry).
Proof.
  intros R. split.
  - intros B. revert R. unfold classify_and_generate_response, bind.
    destruct (_classify_message_type _ _) as [[[t v]|e] w1] eqn:C; [|discriminate].
    apply classify_score in C.
    destruct (_generate_response_data request t w1) as [[rd|e] w2]; [|discriminate].
    destruct (_generate_customer_response request t rd w2) as [[s|e] w3]; [|discriminate].
    unfold new_MainResponse, bind, validate_float. rewrite or_ValidationError_run.
    destruct C as [-> | (m & -> & S)].
    + simpl. intros R. injection R as <- _. vm_compute. reflexivity.
    + destruct (unit_interval_number v (B m v eq_refl S)) as (f & -> & _ & U).
      intros R. injection R as <- _. exact U.
  - intros F. revert R. unfold classify_and_generate_response.
    rewrite (bind_Return _ _ _ _ _
               (classify_falls_back_run (CustomerMessageRequest.message request)
                  c rest u d F)).
    unfold bind.
    destruct (_generate_response_data request general_inquiry _) as [[rd|e] w2];
      [|discriminate].
    destruct (_generate_customer_response request general_inquiry rd w2) as [[s|e] w3];
      [|discriminate].
    unfold new_MainResponse, bind, validate_float. rewrite or_ValidationError_run.
    simpl. intros R. injection R as <- _. split; reflexivity.
Qed.

(** C7, as amended, at scenario A (confidence score 0.75) and at a
    classifier completion that is not JSON. *)
Lemma C7_witness :
  (exists resp w',
      classify_and_generate_response (H := exact_types) (cm := ascii_text) request_A world_A
      = (Return resp, w')
      /\ unit_interval (MainResponse.confidence_score resp) = true)
  /\ (classifier_falls_back not_json = true
      /\ exists resp w',
           classify_and_generate_response (H := exact_types) (cm := ascii_text) request_A
             world_no_json = (Return resp, w')
           /\ MainResponse.confidence_score resp = 0.5%float
           /\ MainResponse.message_type resp = general_inquiry).
Proof.
  split.
  - destruct (classify_and_generate_response (H := exact_types) (cm := ascii_text)
                request_A world_A) as [[resp|e] w'] eqn:E.
    + exists resp, w'. split; [reflexivity|].
      refine (proj1 (C7_confidence_score_bound (H := exact_types) (cm := ascii_text)
                       request_A (classified "bug_report" (JFloat 0.75)) [ticket_A]
                       random_A 0 resp w' E) _).
      intros m v Em Ev. injection Em as <-. vm_compute in Ev. injection Ev as <-.
      reflexivity.
    + vm_compute in E. discriminate E.
  - split; [reflexivity|].
    destruct (classify_and_generate_response (H := exact_types) (cm := ascii_text)
                request_A world_no_json) as [[resp|e] w'] eqn:E.
    + exists resp, w'. split; [reflexivity|].
      exact (proj2 (C7_confidence_score_bound (H := exact_types) (cm := ascii_text)
                      request_A not_json [json_text (JDict inquiry_C)] random_A 0 resp w' E)
               eq_refl).
    + vm_compute in E. discriminate E.
Defined.

(** * Further properties *)

(** ** The enumerations *)

Lemma to_MessageType_cases v w :
  (exists t, v = JStr (MessageType_value t))
  \/ to_MessageType v w = (Raise ValueError, w).
Proof.
  destruct v; try (right; reflexivity). simpl.
  destruct (String.eqb_spec s "bug_report") as [->|]; [left; exists bug_report; reflexivity|].
  destruct (String.eqb_spec s "feature_request") as [->|];
    [left; exists feature_request; reflexivity|].
  destruct (String.eqb_spec s "general_inquiry") as [->|];
    [left; exists general_inquiry; reflexivity|].
  right; reflexivity.
Qed.

Lemma to_InquiryCategory_cases v w :
  (exists c, v = JStr (InquiryCategory_value c))
  \/ to_InquiryCategory v w = (Raise ValueError, w).
Proof.
  destruct v; try (right; reflexivity). simpl.
  destruct (String.eqb_spec s "Account Management") as [->|];
    [left; exists account_management; reflexivity|].
  destruct (String.eqb_spec s "Billing") as [->|]; [left; exists billing; reflexivity|].
  destruct (String.eqb_spec s "Usage Question") as [->|];
    [left; exists usage_question; reflexivity|].
  destruct (String.eqb_spec s "Other") as [->|]; [left; exists other; reflexivity|].
  right; reflexivity.
Qed.

(** X1.  [MessageType(value)] and [InquiryCategory(value)] accept exactly
    the values of their members, as strings and letter for letter: a
    member's value gives the member back, and every other value raises
    [ValueError]. *)
Theorem enum_lookup_round_trip :
  (forall t w, to_MessageType (JStr (MessageType_value t)) w = (Return t, w))
  /\ (forall v w,
         (exists t, v = JStr (MessageType_value t))
         \/ to_MessageType v w = (Raise ValueError, w))
  /\ (forall c w, to_InquiryCategory (JStr (InquiryCategory_value c)) w = (Return c, w))
  /\ (forall v w,
         (exists c, v = JStr (InquiryCategory_value c))
         \/ to_InquiryCategory v w = (Raise ValueError, w)).
Proof.
  split; [exact to_MessageType_value|].
  split; [exact to_MessageType_cases|].
  split; [exact to_InquiryCategory_value | exact to_InquiryCategory_cases].
Qed.

(** ** The classifier *)

(** X2.  Given a completion, [_classify_message_type] consumes that one
    completion and reads nothing from the random source.  It returns the
    fallback, or the member and the score found in an object, or raises
    [TypeError] or [ValueError]: [JSONDecodeError] and [KeyError] never
    leave it. *)
Theorem classifier_outcomes message c rest u d :
  exists o,
    _classify_message_type message (mkWorld (c :: rest) u d) = (o, mkWorld rest u d)
    /\ (o = Return (general_inquiry, JFloat 0.5)
        \/ (exists m t v,
               c = json_text (JDict m)
               /\ m !! "classification" = Some (JStr (MessageType_value t))
               /\ m !! "confidence_score" = Some v
               /\ o = Return (t, v))
        \/ o = Raise TypeError
        \/ o = Raise ValueError).
Proof.
  destruct c as [|j].
  - eexists. split; [reflexivity|]. auto.
  - destruct j; try (eexists; split; [reflexivity|]; auto).
    step_classifier.
    destruct (m !! "classification") as [label|] eqn:L;
      [|eexists; split; [reflexivity|]; auto].
    destruct (to_MessageType_cases label (mkWorld rest u d))
      as [(t & ->) | ->].
    + rewrite to_MessageType_value.
      destruct (m !! "confidence_score") as [v|] eqn:S.
      * eexists. split; [reflexivity|]. right. left. exists m, t, v. auto.
      * eexists. split; [reflexivity|]. auto.
    + eexists. split; [reflexivity|]. auto.
Qed.

(** X3.  The classifier reads two keys of the object and nothing else: two
    objects that agree on ["classification"] and on ["confidence_score"]
    are classified alike, whatever else they hold (a ["reasoning"] or
    not). *)
Theorem classifier_reads_two_keys message (m1 m2 : gmap string json) rest u d :
  m1 !! "classification" = m2 !! "classification" ->
  m1 !! "confidence_score" = m2 !! "confidence_score" ->
  _classify_message_type message (mkWorld (json_text (JDict m1) :: rest) u d)
  = _classify_message_type message (mkWorld (json_text (JDict m2) :: rest) u d).
Proof.
  intros E1 E2. step_classifier. rewrite E1, E2. reflexivity.
Qed.

(** X3 for an object with and without ["reasoning"]. *)
Lemma classifier_reads_two_keys_witness :
  _classify_message_type "hello"
    (mkWorld
       [json_text (JDict (<["classification" := JStr "bug_report"]>
                            (<["confidence_score" := JFloat 0.5]> ∅)))]
       random_A 0)
  = _classify_message_type "hello"
      (mkWorld
         [json_text (JDict (<["reasoning" := JStr "it crashes"]>
                              (<["classification" := JStr "bug_report"]>
                                 (<["confidence_score" := JFloat 0.5]> ∅))))]
         random_A 0).
Proof.
  apply classifier_reads_two_keys; vm_compute; reflexivity.
Defined.

(** X4.  The classifier takes its fallback, [(general_inquiry, 0.5)], on a
    completion that is not JSON, on an object without ["classification"],
    and on an object with a known classification and no
    ["confidence_score"]. *)
Theorem classifier_fallback message c rest u d :
  classifier_falls_back c = true ->
  _classify_message_type message (mkWorld (c :: rest) u d)
  = (Return (general_inquiry, JFloat 0.5), mkWorld rest u d).
Proof.
  destruct c as [|j]; [reflexivity|].
  destruct j; try discriminate. simpl.
  destruct (m !! "classification") as [label|] eqn:L;
    [|intros _; apply classify_no_classification; exact L].
  destruct (unknown_MessageType label) eqn:K; [discriminate|].
  destruct (m !! "confidence_score") eqn:S; [discriminate|]. intros _.
  destruct (to_MessageType_cases label (mkWorld rest u d)) as [(t & ->) | E].
  - apply classify_no_confidence_score with (t := t); assumption.
  - destruct (to_MessageType_known label (mkWorld rest u d) K) as (t & E').
    rewrite E in E'. discriminate E'.
Qed.

(** X4 at an object that has a classification and no score. *)
Lemma classifier_fallback_witness :
  classifier_falls_back
    (json_text (JDict (<["classification" := JStr "feature_request"]> ∅))) = true
  /\ _classify_message_type "hello"
       (mkWorld [json_text (JDict (<["classification" := JStr "feature_request"]> ∅))]
          random_A 0)
     = (Return (general_inquiry, JFloat 0.5), mkWorld [] random_A 0).
Proof.
  split; [vm_compute; reflexivity|].
  apply classifier_fallback. vm_compute; reflexivity.
Defined.

(** ** JSON that is not an object *)

(** X5.  A completion that is valid JSON and not an object (a list, a
    string, a number, [true], [null]) is not handled by any fallback: the
    classifier and the bug-report and feature-request stages raise
    [TypeError] (the two stages after drawing the UUID of the id), the
    general-inquiry stage raises [AttributeError]. *)
Theorem not_an_object_is_not_caught `{Lax} message request v rest u d :
  is_object v = false ->
  _classify_message_type message (mkWorld (json_text v :: rest) u d)
  = (Raise TypeError, mkWorld rest u d)
  /\ _generate_bug_report_data request (mkWorld (json_text v :: rest) u d)
     = (Raise TypeError, mkWorld rest u (S d))
  /\ _generate_feature_request_data request (mkWorld (json_text v :: rest) u d)
     = (Raise TypeError, mkWorld rest u (S d))
  /\ _generate_general_inquiry_data request (mkWorld (json_text v :: rest) u d)
     = (Raise AttributeError, mkWorld rest u d).
Proof.
  destruct v; try discriminate; intros _; repeat split; reflexivity.
Qed.

(** X5 at the completion [[]]. *)
Lemma not_an_object_is_not_caught_witness :
  is_object (JList []) = false
  /\ _classify_message_type "hello" (mkWorld [json_text (JList [])] random_A 0)
     = (Raise TypeError, mkWorld [] random_A 0)
  /\ _generate_bug_report_data (H := exact_types) request_A
       (mkWorld [json_text (JList [])] random_A 0)
     = (Raise TypeError, mkWorld [] random_A 1)
  /\ _generate_feature_request_data (H := exact_types) request_A
       (mkWorld [json_text (JList [])] random_A 0)
     = (Raise TypeError, mkWorld [] random_A 1)
  /\ _generate_general_inquiry_data (H := exact_types) request_A
       (mkWorld [json_text (JList [])] random_A 0)
     = (Raise AttributeError, mkWorld [] random_A 0).
Proof.
  split; [reflexivity|].
  apply (not_an_object_is_not_caught (H := exact_types) "hello" request_A (JList [])
           [] random_A 0).
  reflexivity.
Defined.

(** ** Ids *)

Transparent UUID_str.

Lemma hex_digit_upper d : is_upper_hex (upper_char (hex_digit d)) = true.
Proof.
  unfold hex_digit. generalize (N.to_nat d). intros n.
  do 16 (destruct n as [|n]; [reflexivity|]). reflexivity.
Qed.

(** X6.  An id is its prefix followed by exactly four upper-case
    hexadecimal digits, whatever the random source gives: "BUG-" or "FR-"
    and four characters among 0-9 and A-F. *)
Theorem short_id_format prefix bytes :
  exists a b c d,
    short_id prefix bytes
    = prefix ++ String a (String b (String c (String d EmptyString)))
    /\ is_upper_hex a = true /\ is_upper_hex b = true
    /\ is_upper_hex c = true /\ is_upper_hex d = true.
Proof.
  unfold short_id. generalize (UUID_int bytes). intros i.
  cbv [UUID_str hex_fixed String.append substring upper].
  do 4 eexists. split; [reflexivity|].
  repeat split; apply hex_digit_upper.
Qed.

Opaque UUID_str.

Lemma testbit_high c n : (c < 2 ^ 112)%N -> N.testbit c (n + 112) = false.
Proof.
  intros L. rewrite <- N.shiftr_spec'. rewrite N.shiftr_div_pow2.
  rewrite N.div_small by exact L. apply N.bits_0.
Qed.

Lemma UUID_int_top bytes :
  N.shiftr (UUID_int bytes) 112 = N.shiftr (bytes mod 2 ^ 128) 112.
Proof.
  unfold UUID_int. apply N.bits_inj. intros n.
  rewrite !N.shiftr_spec'.
  rewrite N.lor_spec, N.ldiff_spec, N.lor_spec, N.ldiff_spec.
  rewrite (testbit_high (N.shiftl 4 76)) by (vm_compute; reflexivity).
  rewrite (testbit_high (N.shiftl 0xf000 64)) by (vm_compute; reflexivity).
  rewrite (testbit_high (N.shiftl 0x8000 48)) by (vm_compute; reflexivity).
  rewrite (testbit_high (N.shiftl 0xc000 48)) by (vm_compute; reflexivity).
  rewrite !orb_false_r, !andb_true_r. reflexivity.
Qed.

Lemma div_16_shiftr i : (i / 16 = N.shiftr i 4)%N.
Proof. rewrite N.shiftr_div_pow2. reflexivity. Qed.

Transparent UUID_str.

Lemma short_id_of_top prefix i :
  prefix ++ upper (substring 0 4 (UUID_str i))
  = prefix
      ++ String (upper_char (hex_digit (N.shiftr (N.shiftr i 112) 12 mod 16)))
           (String (upper_char (hex_digit (N.shiftr (N.shiftr i 112) 8 mod 16)))
              (String (upper_char (hex_digit (N.shiftr (N.shiftr i 112) 4 mod 16)))
                 (String (upper_char (hex_digit (N.shiftr (N.shiftr i 112) 0 mod 16)))
                    EmptyString))).
Proof.
  cbv [UUID_str hex_fixed String.append substring upper].
  rewrite !div_16_shiftr, !N.shiftr_shiftr. reflexivity.
Qed.

Opaque UUID_str.

(** X7.  The id depends on the top sixteen bits of the random block and on
    nothing else: two blocks that agree there give the same id, so a prefix
    has 65536 ids at most. *)
Theorem short_id_top_sixteen_bits prefix bytes1 bytes2 :
  N.shiftr (bytes1 mod 2 ^ 128) 112 = N.shiftr (bytes2 mod 2 ^ 128) 112 ->
  short_id prefix bytes1 = short_id prefix bytes2.
Proof.
  intros E. unfold short_id. rewrite !short_id_of_top.
  rewrite !UUID_int_top, E. reflexivity.
Qed.

(** X7 at two blocks that differ below bit 112. *)
Lemma short_id_top_sixteen_bits_witness :
  N.shiftr (0xab12cdef0123456789abcdef01234567 mod 2 ^ 128) 112
  = N.shiftr (0xab12000000000000000000000000ffff mod 2 ^ 128) 112
  /\ short_id "BUG-" 0xab12cdef0123456789abcdef01234567
     = short_id "BUG-" 0xab12000000000000000000000000ffff.
Proof.
  split; [vm_compute; reflexivity|].
  apply short_id_top_sixteen_bits. vm_compute; reflexivity.
Defined.

(** ** Extraction: the success paths *)

Lemma check_strs_JStr `{Lax} (l : list string) : check_strs (map JStr l) = Some l.
Proof. induction l as [|x l IH]; simpl; [reflexivity | rewrite IH; reflexivity]. Qed.

Lemma traverse_validate_str_JStr `{Lax} (l : list string) w :
  traverse validate_str (map JStr l) w = (Return l, w).
Proof.
  rewrite traverse_validate_str, or_ValidationError_run, check_strs_JStr. reflexivity.
Qed.

(** X8.  On an object that has the six keys, with strings and lists of
    strings under them, [_generate_bug_report_data] returns a ticket that
    carries those values as they are (any string is taken as a severity or
    a priority) under an id made from the one UUID it draws. *)
Theorem bug_report_success `{Lax} request (m : gmap string json)
    title severity components steps priority team rest u d :
  m !! "title" = Some (JStr title) ->
  m !! "severity" = Some (JStr severity) ->
  m !! "affected_components" = Some (JList (map JStr components)) ->
  m !! "reproduction_steps" = Some (JList (map JStr steps)) ->
  m !! "priority" = Some (JStr priority) ->
  m !! "assigned_team" = Some (JStr team) ->
  _generate_bug_report_data request (mkWorld (json_text (JDict m) :: rest) u d)
  = (Return
       (TicketResponse.mk
          (TicketModel.mk (short_id "BUG-" (u d)) title severity components steps
             priority team)),
     mkWorld rest u (S d)).
Proof.
  intros E1 E2 E3 E4 E5 E6. open_extraction. simpl.
  rewrite E1, E2, E3, E4, E5, E6.
  unfold new_TicketModel, bind. simpl.
  rewrite !traverse_validate_str_JStr. reflexivity.
Qed.

(** X8 at the ticket of scenario A, with a severity outside the four
    levels. *)
Lemma bug_report_success_witness :
  _generate_bug_report_data (H := exact_types) request_A
    (mkWorld
       [json_text
          (JDict (<["title" := JStr "Crash on save"]>
                 (<["severity" := JStr "Catastrophic"]>
                 (<["affected_components" := JList (map JStr ["Editor"])]>
                 (<["reproduction_steps" := JList (map JStr ["Open a file"; "Click save"])]>
                 (<["priority" := JStr "Urgent"]>
                 (<["assigned_team" := JStr "Engineering"]> ∅)))))))]
       random_A 0)
  = (Return
       (TicketResponse.mk
          (TicketModel.mk (short_id "BUG-" (random_A 0)) "Crash on save" "Catastrophic"
             ["Editor"] ["Open a file"; "Click save"] "Urgent" "Engineering")),
     mkWorld [] random_A 1).
Proof.
  apply (bug_report_success (H := exact_types)); vm_compute; reflexivity.
Defined.

(** X9.  On an object that has the six keys, with strings and a list of
    strings under them, [_generate_feature_request_data] returns a
    requirement that carries those values as they are, with the status
    "Under Review" and an id made from the one UUID it draws. *)
Theorem feature_request_success `{Lax} request (m : gmap string json)
    title description user_story business_value complexity components rest u d :
  m !! "title" = Some (JStr title) ->
  m !! "description" = Some (JStr description) ->
  m !! "user_story" = Some (JStr user_story) ->
  m !! "business_value" = Some (JStr business_value) ->
  m !! "complexity_estimate" = Some (JStr complexity) ->
  m !! "affected_components" = Some (JList (map JStr components)) ->
  _generate_feature_request_data request (mkWorld (json_text (JDict m) :: rest) u d)
  = (Return
       (ProductRequirementResponse.mk
          (ProductRequirementModel.mk (short_id "FR-" (u d)) title description user_story
             business_value complexity components "Under Review")),
     mkWorld rest u (S d)).
Proof.
  intros E1 E2 E3 E4 E5 E6. open_extraction. simpl.
  rewrite E1, E2, E3, E4, E5, E6.
  unfold new_ProductRequirementModel, bind. simpl.
  rewrite !traverse_validate_str_JStr. reflexivity.
Qed.

(** X9 at [requirement_B]. *)
Lemma feature_request_success_witness :
  _generate_feature_request_data (H := exact_types) request_A
    (mkWorld [requirement_B] random_A 0)
  = (Return
       (ProductRequirementResponse.mk
          (ProductRequirementModel.mk (short_id "FR-" (random_A 0)) "Dark mode"
             "A dark colour scheme"
             "As a user, I want dark mode so that I can work at night"
             "High - drives retention" "Medium" ["UI"] "Under Review")),
     mkWorld [] random_A 1).
Proof.
  apply (feature_request_success (H := exact_types) request_A _ "Dark mode"
           "A dark colour scheme" "As a user, I want dark mode so that I can work at night"
           "High - drives retention" "Medium" ["UI"]); vm_compute; reflexivity.
Defined.

(** ** Extraction: the fallback records *)

(** X10.  When the completion of the feature-request stage fails JSON
    parsing, or is an object lacking one of the six keys,
    [_generate_feature_request_data] returns the fixed requirement (title
    "Feature Request", complexity "Medium", components ["General"], status
    "Under Review") under an id made from a UUID drawn in this call: the
    first read of the call when the text is not JSON, the second when a key
    is missing. *)
Theorem feature_request_fallback `{Lax} request c rest u d :
  parse_or_key_failure feature_request_keys c = true ->
  _generate_feature_request_data request (mkWorld (c :: rest) u d)
  = (let n := match c with not_json => d | json_text _ => S d end in
     (Return
        (ProductRequirementResponse.mk
           (ProductRequirementModel.mk (short_id "FR-" (u n)) "Feature Request"
              "New feature requested by customer"
              "As a user, I want this feature so that I can benefit from it"
              "Medium - Customer requested feature" "Medium" ["General"] "Under Review")),
      mkWorld rest u (S n))).
Proof.
  intros Hc. destruct c as [|v]; [reflexivity|].
  destruct v; try discriminate Hc.
  revert Hc. unfold parse_or_key_failure, lacks_key, feature_request_keys, existsb.
  open_extraction. simpl.
  destruct (m !! "title"); [|reflexivity].
  destruct (m !! "description"); [|reflexivity].
  destruct (m !! "user_story"); [|reflexivity].
  destruct (m !! "business_value"); [|reflexivity].
  destruct (m !! "complexity_estimate"); [|reflexivity].
  destruct (m !! "affected_components"); [|reflexivity].
  discriminate.
Qed.

(** X10 at an object that has a title and no other key. *)
Lemma feature_request_fallback_witness :
  parse_or_key_failure feature_request_keys ticket_title_only = true
  /\ _generate_feature_request_data (H := exact_types) request_A
       (mkWorld [ticket_title_only] random_A 0)
     = (Return
          (ProductRequirementResponse.mk
             (ProductRequirementModel.mk (short_id "FR-" (random_A 1)) "Feature Request"
                "New feature requested by customer"
                "As a user, I want this feature so that I can benefit from it"
                "Medium - Customer requested feature" "Medium" ["General"] "Under Review")),
        mkWorld [] random_A 2).
Proof.
  split; [vm_compute; reflexivity|].
  apply (feature_request_fallback (H := exact_types) request_A ticket_title_only
           [] random_A 0).
  vm_compute; reflexivity.
Defined.

(** X11.  The general-inquiry stage returns its fallback record (category
    Other, human review required, the one resource "Help Center") on a
    completion that is not JSON, and on an object that lists no resources
    and has no ["category"], or a known category and no
    ["requires_human_review"]. *)
Theorem general_inquiry_fallback `{Lax} request c rest u d :
  inquiry_falls_back c = true ->
  _generate_general_inquiry_data request (mkWorld (c :: rest) u d)
  = (Return help_center, mkWorld rest u d).
Proof.
  destruct c as [|j]; [reflexivity|].
  destruct j; try discriminate. simpl.
  destruct (m !! "suggested_resources") eqn:R; [discriminate|].
  destruct (m !! "category") as [label|] eqn:C;
    [|intros _; apply general_inquiry_no_category; assumption].
  destruct (unknown_InquiryCategory label) eqn:K; [discriminate|].
  destruct (m !! "requires_human_review") eqn:V; [discriminate|]. intros _.
  destruct (to_InquiryCategory_cases label (mkWorld rest u d)) as [(cat & ->) | E].
  - open_extraction. simpl. rewrite R. simpl. rewrite C.
    rewrite to_InquiryCategory_value. rewrite V. reflexivity.
  - destruct label; try discriminate K.
    revert E K. simpl.
    destruct (String.eqb s "Account Management"); [discriminate|].
    destruct (String.eqb s "Billing"); [discriminate|].
    destruct (String.eqb s "Usage Question"); [discriminate|].
    destruct (String.eqb s "Other"); [discriminate|].
    discriminate.
Qed.

(** X11 at an object with a category and nothing else. *)
Lemma general_inquiry_fallback_witness :
  inquiry_falls_back (json_text (JDict (<["category" := JStr "Billing"]> ∅))) = true
  /\ _generate_general_inquiry_data (H := exact_types) request_A
       (mkWorld [json_text (JDict (<["category" := JStr "Billing"]> ∅))] random_A 0)
     = (Return help_center, mkWorld [] random_A 0).
Proof.
  split; [vm_compute; reflexivity|].
  apply (general_inquiry_fallback (H := exact_types)). vm_compute; reflexivity.
Defined.

(** ** Extraction: the suggested resources *)

Section Resources.
Context `{Lax}.

Lemma read_resource_json r w : read_resource (resource_json r) w = (Return r, w).
Proof. destruct r as [t l]. reflexivity. Qed.

Lemma read_resources_json rs w :
  traverse read_resource (map resource_json rs) w = (Return rs, w).
Proof.
  induction rs as [|r rs IH]; [reflexivity|].
  simpl. unfold bind at 1. rewrite read_resource_json.
  unfold bind. rewrite IH. reflexivity.
Qed.

Lemma read_resource_lacking_key (bad : gmap string json) w :
  lacks_key ["title"; "url"] bad = true ->
  read_resource (JDict bad) w = (Raise KeyError, w).
Proof.
  unfold lacks_key, existsb, read_resource, bind, getitem, ret, raise.
  destruct (bad !! "title"); [|reflexivity].
  destruct (bad !! "url"); [|reflexivity].
  discriminate.
Qed.

Lemma read_resources_lacking_key good (bad : gmap string json) more w :
  lacks_key ["title"; "url"] bad = true ->
  traverse read_resource (map resource_json good ++ JDict bad :: more) w
  = (Raise KeyError, w).
Proof.
  intros L. induction good as [|r good IH].
  - simpl. unfold bind. rewrite (read_resource_lacking_key bad w L). reflexivity.
  - simpl. unfold bind at 1. rewrite read_resource_json.
    unfold bind. rewrite IH. reflexivity.
Qed.

End Resources.

Ltac open_inquiry :=
  open_extraction; simpl; unfold iter, ret, raise; simpl.

(** X12.  Resources written as objects with a title and a url come back as
    they were written: as many as the completion lists, in its order (the
    one to three that the prompt asks for are not enforced), with the
    category and the boolean of the completion. *)
Theorem general_inquiry_resources_round_trip `{Lax} request (m : gmap string json)
    cat b resources rest u d :
  m !! "suggested_resources" = Some (JList (map resource_json resources)) ->
  m !! "category" = Some (JStr (InquiryCategory_value cat)) ->
  m !! "requires_human_review" = Some (JBool b) ->
  _generate_general_inquiry_data request (mkWorld (json_text (JDict m) :: rest) u d)
  = (Return (GeneralInquiryResponse.mk cat b resources), mkWorld rest u d).
Proof.
  intros E1 E2 E3. open_extraction. simpl. rewrite E1. simpl.
  change (traverse _ (map resource_json resources))
    with (traverse read_resource (map resource_json resources)).
  rewrite read_resources_json. rewrite E2.
  rewrite to_InquiryCategory_value. rewrite E3. reflexivity.
Qed.

(** X12 at four resources. *)
Lemma general_inquiry_resources_round_trip_witness :
  _generate_general_inquiry_data (H := exact_types) request_A
    (mkWorld
       [json_text
          (JDict (<["suggested_resources" :=
                      JList (map resource_json
                               [SuggestedResource.mk "Pricing" "https://example.com/pricing";
                                SuggestedResource.mk "Invoices" "https://example.com/invoices";
                                SuggestedResource.mk "Refunds" "https://example.com/refunds";
                                SuggestedResource.mk "Taxes" "https://example.com/taxes"])]>
                    inquiry_C))]
       random_A 0)
  = (Return
       (GeneralInquiryResponse.mk billing false
          [SuggestedResource.mk "Pricing" "https://example.com/pricing";
           SuggestedResource.mk "Invoices" "https://example.com/invoices";
           SuggestedResource.mk "Refunds" "https://example.com/refunds";
           SuggestedResource.mk "Taxes" "https://example.com/taxes"]),
     mkWorld [] random_A 0).
Proof.
  apply (general_inquiry_resources_round_trip (H := exact_types)); vm_compute; reflexivity.
Defined.

(** X13.  One resource without a title or without a url sends the whole
    stage to its fallback record: the resources before it, the category and
    the boolean of the completion are dropped, and an unknown category goes
    unnoticed. *)
Theorem general_inquiry_bad_resource_falls_back `{Lax} request (m bad : gmap string json)
    good more rest u d :
  m !! "suggested_resources"
  = Some (JList (map resource_json good ++ JDict bad :: more)) ->
  lacks_key ["title"; "url"] bad = true ->
  _generate_general_inquiry_data request (mkWorld (json_text (JDict m) :: rest) u d)
  = (Return help_center, mkWorld rest u d).
Proof.
  intros E L. open_extraction. simpl. rewrite E. simpl.
  change (traverse _ (map resource_json good ++ JDict bad :: more))
    with (traverse read_resource (map resource_json good ++ JDict bad :: more)).
  rewrite (read_resources_lacking_key good bad more _ L). reflexivity.
Qed.

(** X13 at a completion with a good resource, a resource without url, and
    a category that names no member. *)
Lemma general_inquiry_bad_resource_falls_back_witness :
  lacks_key ["title"; "url"] (<["title" := JStr "Invoices"]> ∅) = true
  /\ _generate_general_inquiry_data (H := exact_types) request_A
       (mkWorld
          [json_text
             (JDict (<["suggested_resources" :=
                         JList (map resource_json
                                  [SuggestedResource.mk "Pricing" "https://example.com/pricing"]
                                ++ JDict (<["title" := JStr "Invoices"]> ∅) :: [])]>
                       (<["category" := JStr "Complaint"]>
                          (<["requires_human_review" := JBool false]> ∅))))]
          random_A 0)
     = (Return help_center, mkWorld [] random_A 0).
Proof.
  split; [vm_compute; reflexivity|].
  apply (general_inquiry_bad_resource_falls_back (H := exact_types) request_A _
           (<["title" := JStr "Invoices"]> ∅)
           [SuggestedResource.mk "Pricing" "https://example.com/pricing"] []);
    vm_compute; reflexivity.
Defined.

(** X14.  The default of [data.get("suggested_resources", [])] stands in for
    a missing key only: when the key is there with [null], a boolean or a
    number under it, the comprehension raises [TypeError], which is not
    caught. *)
Theorem general_inquiry_resources_not_iterable `{Lax} request (m : gmap string json)
    v rest u d :
  m !! "suggested_resources" = Some v ->
  iterable v = false ->
  _generate_general_inquiry_data request (mkWorld (json_text (JDict m) :: rest) u d)
  = (Raise TypeError, mkWorld rest u d).
Proof.
  intros E I. open_extraction. simpl. rewrite E.
  destruct v; try discriminate I; reflexivity.
Qed.

(** X14 at ["suggested_resources": null]. *)
Lemma general_inquiry_resources_not_iterable_witness :
  iterable JNull = false
  /\ _generate_general_inquiry_data (H := exact_types) request_A
       (mkWorld [json_text (JDict (<["suggested_resources" := JNull]> inquiry_C))]
          random_A 0)
     = (Raise TypeError, mkWorld [] random_A 0).
Proof.
  split; [reflexivity|].
  apply (general_inquiry_resources_not_iterable (H := exact_types) request_A _ JNull);
    vm_compute; reflexivity.
Defined.

(** ** The composer: feature requests and general inquiries *)

(** X15.  The reply to a feature request quotes the requirement's id and
    its business value as [str.lower] gives it, whatever the business value
    and whatever [str.lower] does outside ASCII.  For the requirement
    "FR-9Z01" of business value "High - drives retention", the reply
    contains "FR-9Z01" and "high - drives retention". *)
Theorem feature_request_reply_cites_requirement {cm : CaseMapping} :
  (forall request requirement w,
      exists s,
        _generate_customer_response request feature_request
          (IsProductRequirementResponse (ProductRequirementResponse.mk requirement)) w
        = (Return s, w)
        /\ contains s (ProductRequirementModel.id requirement)
        /\ contains s (str_lower (ProductRequirementModel.business_value requirement)))
  /\ (forall request title description user_story complexity components status w,
         exists s,
           _generate_customer_response request feature_request
             (IsProductRequirementResponse
                (ProductRequirementResponse.mk
                   (ProductRequirementModel.mk "FR-9Z01" title description user_story
                      "High - drives retention" complexity components status))) w
           = (Return s, w)
           /\ contains s "FR-9Z01"
           /\ contains s "high - drives retention").
Proof.
  assert (G : forall request requirement w,
      exists s,
        _generate_customer_response request feature_request
          (IsProductRequirementResponse (ProductRequirementResponse.mk requirement)) w
        = (Return s, w)
        /\ contains s (ProductRequirementModel.id requirement)
        /\ contains s (str_lower (ProductRequirementModel.business_value requirement))).
  { intros request requirement w. eexists. split; [reflexivity|].
    split; [apply contains_here|].
    do 2 apply contains_later. apply contains_here. }
  split; [exact G|].
  intros request title description user_story complexity components status w.
  destruct (G request
              (ProductRequirementModel.mk "FR-9Z01" title description user_story
                 "High - drives retention" complexity components status) w)
    as (s & R & Hid & Hval).
  exists s. repeat split; try assumption.
  simpl in Hval. rewrite (str_lower_ascii "High - drives retention" eq_refl) in Hval.
  exact Hval.
Qed.

Lemma contains_first (s after : string) : contains (s ++ after) s.
Proof. exists EmptyString, after. reflexivity. Qed.

Lemma append_empty (s : string) : s ++ EmptyString = s.
Proof.
  induction s as [|a s IH]; [reflexivity|].
  change (String a (s ++ EmptyString) = String a s). rewrite IH. reflexivity.
Qed.

Lemma contains_self (s : string) : contains s s.
Proof.
  exists EmptyString, EmptyString.
  change (s = s ++ EmptyString). rewrite append_empty. reflexivity.
Qed.

Lemma join_contains sep (l : list string) x :
  In x l -> contains (join sep l) x.
Proof.
  unfold join. induction l as [|y l IH]; [intros []|].
  intros [-> | I].
  - destruct l as [|z l]; [apply contains_self | apply contains_first].
  - destruct l as [|z l]; [destruct I|].
    change (contains (y ++ sep ++ String.concat sep (z :: l)) x).
    do 2 apply contains_later. apply IH. exact I.
Qed.

Lemma contains_first_app (s after needle : string) :
  contains s needle -> contains (s ++ after) needle.
Proof.
  intros (b & a & ->). exists b, (a ++ after).
  rewrite !append_assoc. reflexivity.
Qed.

(** X16.  The reply to a general inquiry names the product.  When human
    review is required it also lists the title of every suggested resource;
    when it is not, the reply is the closing sentence around the product's
    name and nothing else. *)
Theorem general_inquiry_reply {cm : CaseMapping} request inquiry w :
  exists s,
    _generate_customer_response request general_inquiry (IsGeneralInquiryResponse inquiry) w
    = (Return s, w)
    /\ contains s (CustomerMessageRequest.product request)
    /\ (if GeneralInquiryResponse.requires_human_review inquiry
        then Forall (fun r => contains s (SuggestedResource.title r))
               (GeneralInquiryResponse.suggested_resources inquiry)
        else s = "Thank you for your question about "
                   ++ CustomerMessageRequest.product request
                   ++ "! I hope the information provided helps. If you need further assistance, don't hesitate to reach out again.").
Proof.
  unfold _generate_customer_response, bind. simpl.
  destruct (GeneralInquiryResponse.requires_human_review inquiry).
  - eexists. split; [reflexivity|]. split; [apply contains_here|].
    apply Forall_forall. intros r I.
    do 3 apply contains_later. apply contains_first_app.
    apply join_contains. apply in_map. apply list_elem_of_In. exact I.
  - eexists. split; [reflexivity|]. split; [apply contains_here | reflexivity].
Qed.

(** ** The exceptions that leave the service *)

Lemma try_except_escapes {A} (body handler : M A) catches w e w' :
  (forall w1 e1 w2, handler w1 <> (Raise e1, w2)) ->
  try_except body catches handler w = (Raise e, w') ->
  catches e = false.
Proof.
  intros Hh. unfold try_except.
  destruct (body w) as [[a|e0] w1]; [discriminate|].
  destruct (catches e0) eqn:C.
  - intros E. destruct (Hh _ _ _ E).
  - intros E. injection E as <- _. exact C.
Qed.

Lemma create_escapes w e w' :
  create w = (Raise e, w') -> JSONDecodeError_or_KeyError e = false.
Proof.
  unfold create. destruct (completions w); [|discriminate].
  intros E. injection E as <- _. reflexivity.
Qed.

Lemma classify_escapes message w e w' :
  _classify_message_type message w = (Raise e, w') ->
  JSONDecodeError_or_KeyError e = false.
Proof.
  unfold _classify_message_type, bind at 1.
  destruct (create w) as [[c|e0] w1] eqn:Cr.
  - apply try_except_escapes. intros w2 e1 w3. discriminate.
  - intros E. injection E as <- _. exact (create_escapes _ _ _ Cr).
Qed.

Section StageEscapes.
Context `{Lax}.

Lemma bug_report_escapes request w e w' :
  _generate_bug_report_data request w = (Raise e, w') ->
  JSONDecodeError_or_KeyError e = false.
Proof.
  unfold _generate_bug_report_data, bind at 1.
  destruct (create w) as [[c|e0] w1] eqn:Cr.
  - apply try_except_escapes. intros [cs u d] e1 w3. discriminate.
  - intros E. injection E as <- _. exact (create_escapes _ _ _ Cr).
Qed.

Lemma feature_request_escapes request w e w' :
  _generate_feature_request_data request w = (Raise e, w') ->
  JSONDecodeError_or_KeyError e = false.
Proof.
  unfold _generate_feature_request_data, bind at 1.
  destruct (create w) as [[c|e0] w1] eqn:Cr.
  - apply try_except_escapes. intros [cs u d] e1 w3. discriminate.
  - intros E. injection E as <- _. exact (create_escapes _ _ _ Cr).
Qed.

Lemma general_inquiry_escapes request w e w' :
  _generate_general_inquiry_data request w = (Raise e, w') ->
  JSONDecodeError_or_KeyError e = false.
Proof.
  unfold _generate_general_inquiry_data, bind at 1.
  destruct (create w) as [[c|e0] w1] eqn:Cr.
  - apply try_except_escapes. intros [cs u d] e1 w3. discriminate.
  - intros E. injection E as <- _. exact (create_escapes _ _ _ Cr).
Qed.

Lemma generate_response_data_escapes request t w e w' :
  _generate_response_data request t w = (Raise e, w') ->
  JSONDecodeError_or_KeyError e = false.
Proof.
  destruct t; unfold _generate_response_data, bind.
  - destruct (_generate_bug_report_data request w) as [[r|e0] w1] eqn:G; [discriminate|].
    intros E. injection E as <- _. exact (bug_report_escapes _ _ _ _ G).
  - destruct (_generate_feature_request_data request w) as [[r|e0] w1] eqn:G; [discriminate|].
    intros E. injection E as <- _. exact (feature_request_escapes _ _ _ _ G).
  - destruct (_generate_general_inquiry_data request w) as [[r|e0] w1] eqn:G; [discriminate|].
    intros E. injection E as <- _. exact (general_inquiry_escapes _ _ _ _ G).
Qed.

End StageEscapes.

Lemma customer_response_escapes {cm : CaseMapping} request t response_data w e w' :
  _generate_customer_response request t response_data w = (Raise e, w') ->
  e = AttributeError.
Proof.
  destruct t, response_data as [r|r|r]; simpl; try discriminate;
    try (intros E; injection E as <- _; reflexivity).
  unfold _generate_customer_response, bind. simpl.
  destruct (GeneralInquiryResponse.requires_human_review r); discriminate.
Qed.

(** X17.  Whatever the completions and the request,
    [classify_and_generate_response] never raises [JSONDecodeError] or
    [KeyError]: a completion that is not JSON, or an object that lacks a
    key, is absorbed by a fallback at the stage where it is read. *)
Theorem service_never_raises_parse_errors `{Lax} {cm : CaseMapping} request w e w' :
  classify_and_generate_response request w = (Raise e, w') ->
  JSONDecodeError_or_KeyError e = false.
Proof.
  unfold classify_and_generate_response, bind.
  destruct (_classify_message_type _ w) as [[[t v]|e0] w1] eqn:C.
  - destruct (_generate_response_data request t w1) as [[rd|e1] w2] eqn:G.
    + destruct (_generate_customer_response request t rd w2) as [[s|e2] w3] eqn:R.
      * unfold new_MainResponse, bind, validate_float. rewrite or_ValidationError_run.
        destruct (check_float v); [discriminate|].
        intros E. injection E as <- _. reflexivity.
      * intros E. injection E as <- _.
        rewrite (customer_response_escapes _ _ _ _ _ _ R). reflexivity.
    + intros E. injection E as <- _. exact (generate_response_data_escapes _ _ _ _ _ G).
  - intros E. injection E as <- _. exact (classify_escapes _ _ _ _ C).
Qed.

(** X17 at a run that raises: an unknown classification. *)
Lemma service_never_raises_parse_errors_witness :
  classify_and_generate_response (H := exact_types) (cm := ascii_text) request_A
    (mkWorld [classified "complaint" (JFloat 0.5); ticket_A] random_A 0)
  = (Raise ValueError, mkWorld [ticket_A] random_A 0)
  /\ JSONDecodeError_or_KeyError ValueError = false.
Proof.
  assert (E : classify_and_generate_response (H := exact_types) (cm := ascii_text) request_A
                (mkWorld [classified "complaint" (JFloat 0.5); ticket_A] random_A 0)
              = (Raise ValueError, mkWorld [ticket_A] random_A 0))
    by (vm_compute; reflexivity).
  split; [exact E|].
  exact (service_never_raises_parse_errors (H := exact_types) (cm := ascii_text) _ _ _ _ E).
Defined.

(** ** What the service takes from the world *)

Lemma classify_world message c rest u d :
  snd (_classify_message_type message (mkWorld (c :: rest) u d)) = mkWorld rest u d.
Proof.
  destruct c as [|j]; [reflexivity|].
  destruct j; try reflexivity.
  step_classifier.
  destruct (m !! "classification") as [label|]; [|reflexivity].
  destruct (to_MessageType_cases label (mkWorld rest u d)) as [(t & ->) | ->];
    [|reflexivity].
  rewrite to_MessageType_value.
  destruct (m !! "confidence_score"); reflexivity.
Qed.

Ltac world_at n := solve [exists n; split; [reflexivity | auto]].

Section StageWorlds.
Context `{Lax}.

Lemma new_TicketModel_run i a b c d e f w :
  match new_TicketModel (JStr i) a b c d e f w with
  | (Return r, w') => w' = w
  | (Raise x, w') => w' = w /\ x = ValidationError
  end.
Proof.
  unfold new_TicketModel, bind, validate_str.
  rewrite or_ValidationError_run; simpl.
  rewrite or_ValidationError_run; destruct (check_str a); [|auto].
  rewrite or_ValidationError_run; destruct (check_str b); [|auto].
  rewrite validate_list_str_run, or_ValidationError_run.
  destruct (check_list_str c); [|auto].
  rewrite validate_list_str_run, or_ValidationError_run.
  destruct (check_list_str d); [|auto].
  rewrite or_ValidationError_run; destruct (check_str e); [|auto].
  rewrite or_ValidationError_run; destruct (check_str f); [|auto].
  reflexivity.
Qed.

Lemma bug_report_world request c rest u d :
  exists n,
    snd (_generate_bug_report_data request (mkWorld (c :: rest) u d)) = mkWorld rest u n
    /\ (n = S d \/ n = S (S d)).
Proof.
  destruct c as [|j]; [world_at (S d)|].
  destruct j; try (world_at (S d)).
  open_extraction. simpl.
  destruct (m !! "title"); [|world_at (S (S d))].
  destruct (m !! "severity"); [|world_at (S (S d))].
  destruct (m !! "affected_components"); [|world_at (S (S d))].
  destruct (m !! "reproduction_steps"); [|world_at (S (S d))].
  destruct (m !! "priority"); [|world_at (S (S d))].
  destruct (m !! "assigned_team"); [|world_at (S (S d))].
  match goal with
  | |- context [new_TicketModel (JStr ?i) ?a ?b ?c ?d' ?e ?f ?w] =>
      pose proof (new_TicketModel_run i a b c d' e f w) as R;
      destruct (new_TicketModel (JStr i) a b c d' e f w) as [[r0|x] w0]
  end.
  - subst w0. world_at (S d).
  - destruct R as (-> & ->). world_at (S d).
Qed.

Lemma feature_request_world request c rest u d :
  exists n,
    snd (_generate_feature_request_data request (mkWorld (c :: rest) u d)) = mkWorld rest u n
    /\ (n = S d \/ n = S (S d)).
Proof.
  destruct c as [|j]; [world_at (S d)|].
  destruct j; try (world_at (S d)).
  open_extraction. simpl.
  destruct (m !! "title"); [|world_at (S (S d))].
  destruct (m !! "description"); [|world_at (S (S d))].
  destruct (m !! "user_story"); [|world_at (S (S d))].
  destruct (m !! "business_value"); [|world_at (S (S d))].
  destruct (m !! "complexity_estimate"); [|world_at (S (S d))].
  destruct (m !! "affected_components"); [|world_at (S (S d))].
  match goal with
  | |- context [new_ProductRequirementModel (JStr ?i) ?a ?b ?c ?d' ?e ?f (JStr ?s) ?w] =>
      pose proof (new_ProductRequirementModel_run i a b c d' e f s w) as R;
      destruct (new_ProductRequirementModel (JStr i) a b c d' e f (JStr s) w)
        as [[r0|x] w0]
  end.
  - destruct R as (-> & _). world_at (S d).
  - destruct R as (-> & ->). world_at (S d).
Qed.

Lemma read_resource_world x w : snd (read_resource x w) = w.
Proof.
  unfold read_resource, bind, getitem, ret, raise.
  destruct x; try reflexivity.
  destruct (m !! "title"); [|reflexivity].
  destruct (m !! "url"); [|reflexivity].
  unfold new_SuggestedResource, bind, validate_str.
  rewrite or_ValidationError_run. destruct (check_str j); [|reflexivity].
  rewrite or_ValidationError_run. destruct (check_str j0); reflexivity.
Qed.

Lemma read_resources_world items w : snd (traverse read_resource items w) = w.
Proof.
  revert w. induction items as [|x items IH]; intros w; [reflexivity|].
  simpl. unfold bind at 1.
  pose proof (read_resource_world x w) as R.
  destruct (read_resource x w) as [[r|e] w1]; simpl in R; subst w1; [|reflexivity].
  unfold bind. pose proof (IH w) as T.
  destruct (traverse read_resource items w) as [[rs|e] w1]; simpl in T; subst w1;
    reflexivity.
Qed.

Lemma general_inquiry_world request c rest u d :
  snd (_generate_general_inquiry_data request (mkWorld (c :: rest) u d)) = mkWorld rest u d.
Proof.
  destruct c as [|j]; [reflexivity|].
  destruct j; try reflexivity.
  open_extraction. simpl.
  destruct (default (JList []) (m !! "suggested_resources")) as [| | | | s | items | keys];
    try reflexivity; simpl.
  all: match goal with
       | |- context [traverse ?f ?l ?w] =>
           change (traverse f l w) with (traverse read_resource l w);
           pose proof (read_resources_world l w) as T;
           destruct (traverse read_resource l w) as [[rs|e] w1]; simpl in T; subst w1
       end.
  all: try (destruct e; reflexivity).
  all: destruct (m !! "category") as [label|]; [|reflexivity].
  all: destruct (to_InquiryCategory_cases label (mkWorld rest u d)) as [(cat & ->) | ->];
    [|reflexivity].
  all: rewrite to_InquiryCategory_value.
  all: destruct (m !! "requires_human_review") as [v|]; [|reflexivity].
  all: unfold new_GeneralInquiryResponse, bind, validate_bool.
  all: rewrite or_ValidationError_run; destruct (check_bool v); reflexivity.
Qed.

End StageWorlds.

Ltac finish_envelope v :=
  unfold new_MainResponse, bind, validate_float; rewrite or_ValidationError_run;
  destruct (check_float v); [|discriminate];
  let E := fresh "E" in
  intros E; injection E as <- <-; simpl; eexists _, _; repeat split; auto.

(** X18.  A call of [classify_and_generate_response] that returns has
    made two calls of the completion API, one to classify and one to
    extract (the reply is composed without one), and has left the random
    source as it was apart from the reads: none for a general inquiry, one
    or two for a bug report or a feature request. *)
Theorem service_consumes_two_completions `{Lax} {cm : CaseMapping} request w resp w' :
  classify_and_generate_response request w = (Return resp, w') ->
  exists c1 c2,
    completions w = c1 :: c2 :: completions w'
    /\ urandom w' = urandom w
    /\ match MainResponse.message_type resp with
       | general_inquiry => drawn w' = drawn w
       | _ => drawn w' = S (drawn w) \/ drawn w' = S (S (drawn w))
       end.
Proof.
  destruct w as [cs u d]. unfold classify_and_generate_response, bind.
  destruct cs as [|c1 rest1]; [discriminate|].
  pose proof (classify_world (CustomerMessageRequest.message request) c1 rest1 u d) as W1.
  destruct (_classify_message_type _ _) as [[[t v]|e] w1]; simpl in W1; subst w1;
    [|discriminate].
  destruct rest1 as [|c2 rest2]; [destruct t; discriminate|].
  destruct t; unfold _generate_response_data, bind.
  - destruct (bug_report_world request c2 rest2 u d) as (n & Wn & Hn).
    destruct (_generate_bug_report_data _ _) as [[r|e] w2]; simpl in Wn; subst w2;
      [|discriminate].
    simpl. finish_envelope v.
  - destruct (feature_request_world request c2 rest2 u d) as (n & Wn & Hn).
    destruct (_generate_feature_request_data _ _) as [[r|e] w2]; simpl in Wn; subst w2;
      [|discriminate].
    simpl. finish_envelope v.
  - pose proof (general_inquiry_world request c2 rest2 u d) as Wn.
    destruct (_generate_general_inquiry_data _ _) as [[r|e] w2]; simpl in Wn; subst w2;
      [|discriminate].
    unfold _generate_customer_response, bind. simpl.
    destruct (GeneralInquiryResponse.requires_human_review r); simpl; finish_envelope v.
Qed.

(** X18 at scenario A. *)
Lemma service_consumes_two_completions_witness :
  exists resp w',
    classify_and_generate_response (H := exact_types) (cm := ascii_text) request_A world_A = (Return resp, w')
    /\ exists c1 c2,
         completions world_A = c1 :: c2 :: completions w'
         /\ urandom w' = urandom world_A
         /\ match MainResponse.message_type resp with
            | general_inquiry => drawn w' = drawn world_A
            | _ => drawn w' = S (drawn world_A) \/ drawn w' = S (S (drawn world_A))
            end.
Proof.
  destruct (classify_and_generate_response (H := exact_types) (cm := ascii_text) request_A world_A)
    as [[resp|e] w'] eqn:E.
  - exists resp, w'. split; [reflexivity|].
    exact (service_consumes_two_completions (H := exact_types) (cm := ascii_text) request_A world_A resp w' E).
  - vm_compute in E. discriminate E.
Defined.

(** X19.  The classifier hands on whatever is under ["confidence_score"];
    that it fits a [float] is checked when the envelope is built, after
    the extraction: a score that does not fit ([null], a list, ...) makes
    the call raise [ValidationError] once both completions are consumed and
    the structured data is there. *)
Theorem score_checked_after_extraction `{Lax} {cm : CaseMapping} request (m : gmap string json)
    t v rest u d response_data w' :
  m !! "classification" = Some (JStr (MessageType_value t)) ->
  m !! "confidence_score" = Some v ->
  check_float v = None ->
  _generate_response_data request t (mkWorld rest u d) = (Return response_data, w') ->
  classify_and_generate_response request (mkWorld (json_text (JDict m) :: rest) u d)
  = (Raise ValidationError, w').
Proof.
  intros E1 E2 F G.
  pose proof (classify_success (CustomerMessageRequest.message request) m t v rest u d E1 E2)
    as C.
  destruct (customer_response_of_variant request t response_data
              (generate_response_data_variant _ _ _ _ _ G)) as (s & Hs).
  unfold classify_and_generate_response.
  rewrite (bind_Return _ _ _ _ _ C).
  rewrite (bind_Return _ _ _ _ _ G).
  rewrite (bind_Return _ _ _ _ _ (Hs w')).
  unfold new_MainResponse, bind, validate_float.
  rewrite or_ValidationError_run, F. reflexivity.
Qed.

(** X19 at a score of [null]. *)
Lemma score_checked_after_extraction_witness :
  exists response_data w',
    _generate_response_data (H := exact_types) request_A bug_report
      (mkWorld [ticket_A] random_A 0) = (Return response_data, w')
    /\ classify_and_generate_response (H := exact_types) (cm := ascii_text) request_A
         (mkWorld [classified "bug_report" JNull; ticket_A] random_A 0)
       = (Raise ValidationError, w')
    /\ completions w' = [].
Proof.
  pose (m := <["classification" := JStr "bug_report"]>
               (<["confidence_score" := JNull]> (∅ : gmap string json))).
  assert (E1 : m !! "classification" = Some (JStr (MessageType_value bug_report)))
    by (vm_compute; reflexivity).
  assert (E2 : m !! "confidence_score" = Some JNull) by (vm_compute; reflexivity).
  destruct (_generate_response_data (H := exact_types) request_A bug_report
              (mkWorld [ticket_A] random_A 0)) as [[rd|e] w'] eqn:G.
  - exists rd, w'. split; [reflexivity|]. split.
    + exact (score_checked_after_extraction (H := exact_types) (cm := ascii_text) request_A m bug_report JNull
               [ticket_A] random_A 0 rd w' E1 E2 eq_refl G).
    + vm_compute in G. injection G as _ <-. reflexivity.
  - vm_compute in G. discriminate G.
Defined.

(** ** A field of the wrong type *)

(** X22.  A bug-report object that has the six keys and a value that does
    not fit its field ([null] for a string, a string for a list, ...) is
    not replaced by the fallback ticket: the model refuses it with
    [ValidationError], which the stage lets through. *)
Theorem bug_report_ill_typed_field `{Lax} request (m : gmap string json)
    vt vs vc vr vp va rest u d :
  m !! "title" = Some vt ->
  m !! "severity" = Some vs ->
  m !! "affected_components" = Some vc ->
  m !! "reproduction_steps" = Some vr ->
  m !! "priority" = Some vp ->
  m !! "assigned_team" = Some va ->
  check_str vt = None \/ check_str vs = None \/ check_list_str vc = None
  \/ check_list_str vr = None \/ check_str vp = None \/ check_str va = None ->
  _generate_bug_report_data request (mkWorld (json_text (JDict m) :: rest) u d)
  = (Raise ValidationError, mkWorld rest u (S d)).
Proof.
  intros E1 E2 E3 E4 E5 E6 Bad. open_extraction. simpl.
  rewrite E1, E2, E3, E4, E5, E6.
  unfold new_TicketModel, bind, validate_str.
  rewrite or_ValidationError_run; simpl.
  rewrite or_ValidationError_run; destruct (check_str vt); [|reflexivity].
  rewrite or_ValidationError_run; destruct (check_str vs); [|reflexivity].
  rewrite validate_list_str_run, or_ValidationError_run.
  destruct (check_list_str vc); [|reflexivity].
  rewrite validate_list_str_run, or_ValidationError_run.
  destruct (check_list_str vr); [|reflexivity].
  rewrite or_ValidationError_run; destruct (check_str vp); [|reflexivity].
  rewrite or_ValidationError_run; destruct (check_str va); [|reflexivity].
  destruct Bad as [B|[B|[B|[B|[B|B]]]]]; discriminate B.
Qed.

(** X22 at a ticket whose components are one string, not a list. *)
Lemma bug_report_ill_typed_field_witness :
  _generate_bug_report_data (H := exact_types) request_A
    (mkWorld
       [json_text
          (JDict (<["title" := JStr "Crash on save"]>
                 (<["severity" := JStr "High"]>
                 (<["affected_components" := JStr "Editor"]>
                 (<["reproduction_steps" := JList [JStr "Click save"]]>
                 (<["priority" := JStr "Urgent"]>
                 (<["assigned_team" := JStr "Engineering"]> ∅)))))))]
       random_A 0)
  = (Raise ValidationError, mkWorld [] random_A 1).
Proof.
  apply (bug_report_ill_typed_field (H := exact_types) request_A _
           (JStr "Crash on save") (JStr "High") (JStr "Editor")
           (JList [JStr "Click save"]) (JStr "Urgent") (JStr "Engineering"));
    try (vm_compute; reflexivity).
  right. right. left. reflexivity.
Defined.

(** ** The endpoints *)

Lemma health_check_flag environ :
  health_check environ !! "openai_key_configured"
  = Some (JBool (truthy (getenv environ "OPENAI_API_KEY"))).
Proof. reflexivity. Qed.

(** X20.  [process_customer_message] never lets an exception of the
    service through: it answers with the envelope that
    [classify_and_generate_response] returned, or raises [HTTPException]
    with status 500.  The detail is the missing-key message exactly when
    the key is unset or empty, and then no completion is asked for;
    otherwise it is the text of the exception the service raised. *)
Theorem endpoint_answers `{Lax} {cm : CaseMapping} environ request w :
  exists a w',
    process_customer_message environ request w = (a, w')
    /\ match a with
       | response_200 response =>
           truthy (getenv environ "OPENAI_API_KEY") = true
           /\ classify_and_generate_response request w = (Return response, w')
       | raise_HTTPException e =>
           HTTPException.status_code e = 500%Z
           /\ match HTTPException.detail e with
              | message_text s =>
                  s = missing_key_message
                  /\ truthy (getenv environ "OPENAI_API_KEY") = false
                  /\ w' = w
              | str_of x =>
                  truthy (getenv environ "OPENAI_API_KEY") = true
                  /\ classify_and_generate_response request w = (Raise x, w')
              end
       end.
Proof.
  unfold process_customer_message.
  destruct (truthy (getenv environ "OPENAI_API_KEY")); simpl.
  - destruct (classify_and_generate_response request w) as [[r|x] w'];
      eexists _, _; (split; [reflexivity|]); simpl; auto.
  - eexists _, _. split; [reflexivity|]. simpl. auto.
Qed.

(** X21.  [health_check] and [process_customer_message] agree on the key:
    the health check reports [openai_key_configured] false exactly when
    the endpoint answers 500 with the missing-key message, for an unset key
    and for an empty one alike. *)
Theorem health_check_agrees_with_endpoint `{Lax} {cm : CaseMapping} environ request w :
  health_check environ !! "openai_key_configured" = Some (JBool false)
  <-> process_customer_message environ request w
      = (raise_HTTPException (HTTPException.mk 500 (message_text missing_key_message)), w).
Proof.
  rewrite health_check_flag. unfold process_customer_message.
  destruct (truthy (getenv environ "OPENAI_API_KEY")); simpl.
  - split; [discriminate|].
    destruct (classify_and_generate_response request w) as [[r|x] w']; discriminate.
  - split; reflexivity.
Qed.

(** The key as [os.getenv] may find it: unset, empty, set. *)
Example getenv_cases :
  truthy (getenv ∅ "OPENAI_API_KEY") = false
  /\ truthy (getenv (<["OPENAI_API_KEY" := EmptyString]> ∅) "OPENAI_API_KEY") = false
  /\ truthy (getenv (<["OPENAI_API_KEY" := "sk-test"]> ∅) "OPENAI_API_KEY") = true.
Proof. repeat split; vm_compute; reflexivity. Qed.

(** With the key set, an unknown classification is answered with 500 and
    the second completion is left unasked. *)
Example endpoint_unknown_classification `{Lax} {cm : CaseMapping} :
  process_customer_message (<["OPENAI_API_KEY" := "sk-test"]> ∅) request_A
    (mkWorld [classified "complaint" (JFloat 0.5); ticket_A] random_A 0)
  = (raise_HTTPException (HTTPException.mk 500 (str_of ValueError)),
     mkWorld [ticket_A] random_A 0).
Proof.
  unfold process_customer_message.
  replace (truthy (getenv (<["OPENAI_API_KEY" := "sk-test"]> ∅) "OPENAI_API_KEY"))
    with true by (vm_compute; reflexivity).
  simpl. rewrite scenario_unknown_classification. reflexivity.
Qed.
